(** * hickle/loaders/load_python3.py: dumpers and loaders of the built-in types

    A shallow embedding of the module.  Python objects are a sum type
    [value]; an h5py group is a finite map from dataset names to datasets; a
    dataset carries its contents, its dtype, the keyword options it was
    created with and its attribute dictionary.  Every dumper threads the
    group explicitly and every function that can raise returns a [result].

    The store converts the data it is handed before it creates a dataset.
    The conversion is written out where it keeps the data as they are: a
    number of the width of its dtype, a flat list of scalars of one kind.
    An integer outside 64 bits and a byte string with a NUL are refused.
    What numpy and h5py make of other data (lists of mixed kinds, lists of
    arrays), what Python's builtins do on payloads of another kind, and the
    set of floats that the bit patterns do not decide are left open in a
    [Runtime] record: the theorems hold for every such behaviour. *)

From Stdlib Require Import ZArith String List.
From stdpp Require Import base option countable gmap strings pretty list fin_sets.

Local Open Scope Z_scope.
Local Open Scope string_scope.

(** ** Exceptions and results *)

(** The exceptions the module can surface.  The first six are Python's;
    the next two are raised by the dispatch layer; the last two are names
    of the specification that no function of the module raises. *)
Inductive exn :=
| TypeError
| IndexError
| KeyError
| ValueError
| NameError
| OverflowError
| UnsupportedTypeError
| UnknownTagError
| UnknownSubtypeError
| MalformedPayloadError.

Inductive result (A : Type) :=
| Ok (a : A)
| Raise (e : exn).

Arguments Ok {A} a.
Arguments Raise {A} e.

Definition rbind {A B : Type} (r : result A) (k : A -> result B) : result B :=
  match r with
  | Ok a => k a
  | Raise e => Raise e
  end.

Notation "'do' x <~ r ; k" := (rbind r (fun x => k))
  (at level 10, x name, r at level 100, k at level 200, only parsing).

(** ** Python objects *)

(** A float is its IEEE 754 binary64 bit pattern. *)
Abbreviation float := Z (only parsing).

(** One slot of a dataset, or one element of a flat container. *)
Inductive scalar :=
| SInt (z : Z)
| SFloat (f : float)
| SBool (b : bool)
| SComplex (re im : float)
| SBytes (b : string)
| SStr (s : string).

Global Instance scalar_eq_dec : EqDecision scalar.
Proof. solve_decision. Defined.

Definition scalar_to_sum (x : scalar)
  : Z + Z + bool + (Z * Z) + string + string :=
  match x with
  | SInt z => inl (inl (inl (inl (inl z))))
  | SFloat f => inl (inl (inl (inl (inr f))))
  | SBool b => inl (inl (inl (inr b)))
  | SComplex re im => inl (inl (inr (re, im)))
  | SBytes b => inl (inr b)
  | SStr s => inr s
  end.

Definition scalar_of_sum (x : Z + Z + bool + (Z * Z) + string + string)
  : scalar :=
  match x with
  | inl (inl (inl (inl (inl z)))) => SInt z
  | inl (inl (inl (inl (inr f)))) => SFloat f
  | inl (inl (inl (inr b))) => SBool b
  | inl (inl (inr (re, im))) => SComplex re im
  | inl (inr b) => SBytes b
  | inr s => SStr s
  end.

Global Instance scalar_countable : Countable scalar.
Proof.
  apply (inj_countable' scalar_to_sum scalar_of_sum).
  intros []; reflexivity.
Defined.

(** The runtime types [type(py_obj)] can return. *)
Inductive pytype :=
| TList | TTuple | TSet | TBytes | TStr
| TInt | TFloat | TBool | TComplex | TNoneType | TByteArray.

Global Instance pytype_eq_dec : EqDecision pytype.
Proof. solve_decision. Defined.

Definition pytype_to_nat (t : pytype) : nat :=
  match t with
  | TList => 0 | TTuple => 1 | TSet => 2 | TBytes => 3 | TStr => 4
  | TInt => 5 | TFloat => 6 | TBool => 7 | TComplex => 8
  | TNoneType => 9 | TByteArray => 10
  end%nat.

Definition pytype_of_nat (n : nat) : pytype :=
  match n with
  | 0 => TList | 1 => TTuple | 2 => TSet | 3 => TBytes | 4 => TStr
  | 5 => TInt | 6 => TFloat | 7 => TBool | 8 => TComplex
  | 9 => TNoneType | _ => TByteArray
  end%nat.

Global Instance pytype_countable : Countable pytype.
Proof.
  apply (inj_countable' pytype_to_nat pytype_of_nat).
  intros []; reflexivity.
Defined.

(** What [h_node[()]] returns: a zero-dimensional scalar, a flat array, or
    an array of more dimensions, given by its sub-arrays along the first
    axis. *)
#[local] Unset Elimination Schemes.

Inductive payload :=
| PScalar (x : scalar)
| PArray (l : list scalar)
| PNested (rows : list payload).

#[local] Set Elimination Schemes.

(** The objects handed to the dumpers and returned by the loaders.  The
    containers a dumper is meant for are flat: their elements are scalars.
    A list or a tuple of arrays is what [list(data)] and [tuple(data)]
    give for an array of more than one dimension. *)
Inductive value :=
| VList (l : list scalar)
| VTuple (l : list scalar)
| VSet (s : gset scalar)
| VBytes (b : string)
| VStr (s : string)
| VInt (z : Z)
| VFloat (f : float)
| VBool (b : bool)
| VComplex (re im : float)
| VNone
| VByteArray (b : string)
| VListOf (rows : list payload)
| VTupleOf (rows : list payload).

(** [type(py_obj)] *)
Definition type_of (py_obj : value) : pytype :=
  match py_obj with
  | VList _ => TList
  | VTuple _ => TTuple
  | VSet _ => TSet
  | VBytes _ => TBytes
  | VStr _ => TStr
  | VInt _ => TInt
  | VFloat _ => TFloat
  | VBool _ => TBool
  | VComplex _ _ => TComplex
  | VNone => TNoneType
  | VByteArray _ => TByteArray
  | VListOf _ => TList
  | VTupleOf _ => TTuple
  end.

Definition type_name (t : pytype) : string :=
  match t with
  | TList => "list" | TTuple => "tuple" | TSet => "set"
  | TBytes => "bytes" | TStr => "str"
  | TInt => "int" | TFloat => "float" | TBool => "bool"
  | TComplex => "complex" | TNoneType => "NoneType"
  | TByteArray => "bytearray"
  end.

(** [str(t)] for a type object [t], and [bytes(s, 'ascii')], which leaves
    the characters of an ASCII string unchanged. *)
Definition str_of_type (t : pytype) : string :=
  "<class '" ++ type_name t ++ "'>".

Definition bytes_ascii (s : string) : string := s.

Definition code_points (s : string) : list scalar :=
  (fun a => SInt (Z.of_N (Ascii.N_of_ascii a))) <$> list_ascii_of_string s.

Definition characters (s : string) : list scalar :=
  (fun a => SStr (String a EmptyString)) <$> list_ascii_of_string s.

(** A Python list as the dumpers build it: of scalars, or of arrays. *)
Inductive pylist :=
| Flat (l : list scalar)
| Rows (rows : list payload).

(** [list(py_obj)] *)
Definition list_of_value (py_obj : value) : result pylist :=
  match py_obj with
  | VList l => Ok (Flat l)
  | VTuple l => Ok (Flat l)
  | VSet s => Ok (Flat (elements s))
  | VBytes b => Ok (Flat (code_points b))
  | VByteArray b => Ok (Flat (code_points b))
  | VStr s => Ok (Flat (characters s))
  | VListOf rows => Ok (Rows rows)
  | VTupleOf rows => Ok (Rows rows)
  | VInt _ | VFloat _ | VBool _ | VComplex _ _ | VNone => Raise TypeError
  end.

(** ** What the store holds as it is *)

(** The range of the 64-bit integer that [dtype=int] selects. *)
Definition int64 (z : Z) : bool := Z.leb (- 2 ^ 63) z && Z.ltb z (2 ^ 63).

Definition nul_free (s : string) : bool :=
  forallb (fun a => negb (Ascii.eqb a Ascii.zero)) (list_ascii_of_string s).

Definition same_kind (x y : scalar) : bool :=
  match x, y with
  | SInt _, SInt _ | SFloat _, SFloat _ | SBool _, SBool _
  | SComplex _ _, SComplex _ _ | SBytes _, SBytes _ | SStr _, SStr _ => true
  | _, _ => false
  end.

(** All the elements are of the kind of the first. *)
Definition homogeneous (l : list scalar) : bool :=
  match l with
  | [] => true
  | x :: l' => forallb (same_kind x) l'
  end.

Definition in_range (x : scalar) : bool :=
  match x with
  | SInt z => int64 z
  | _ => true
  end.

Definition has_nul (x : scalar) : bool :=
  match x with
  | SBytes b => negb (nul_free b)
  | _ => false
  end.

(** A float on which Python's [==] and [hash] are decided by the bit
    pattern: a 64-bit pattern that is neither a NaN nor the negative
    zero. *)
Definition is_nan (f : float) : bool :=
  Z.eqb (Z.land (Z.shiftr f 52) 2047) 2047
  && negb (Z.eqb (Z.land f (2 ^ 52 - 1)) 0).

Definition float_exact (f : float) : bool :=
  Z.leb 0 f && Z.ltb f (2 ^ 64) && negb (is_nan f) && negb (Z.eqb f (2 ^ 63)).

Definition hash_exact (x : scalar) : bool :=
  match x with
  | SFloat f => float_exact f
  | SComplex re im => float_exact re && float_exact im
  | _ => true
  end.

(** A scalar that a flat array holds as it is. *)
Definition clean (x : scalar) : bool :=
  match x with
  | SInt z => int64 z
  | SBytes b => nul_free b
  | SStr s => nul_free s
  | _ => true
  end.

(** The representative values of the ten kinds: the values the store holds
    as they are, and on which Python's equality is the equality of their
    model. *)
Definition representative (py_obj : value) : bool :=
  match py_obj with
  | VList l | VTuple l =>
      homogeneous l && forallb clean l && forallb hash_exact l
  | VSet s =>
      homogeneous (elements s) && forallb clean (elements s)
      && forallb hash_exact (elements s)
  | VBytes b => nul_free b
  | VStr s => nul_free s
  | VInt z => int64 z
  | VFloat f => float_exact f
  | VComplex re im => float_exact re && float_exact im
  | VBool _ | VNone => true
  | VByteArray _ | VListOf _ | VTupleOf _ => false
  end.

(** ** The h5py store *)

(** The dtype a dataset is created with: a Python type object, or
    [h5.special_dtype(vlen=str)]. *)
Inductive h5dtype :=
| DtType (t : pytype)
| DtVlenStr.

(** An attribute value: a byte string, or a list of byte strings. *)
Inductive attr :=
| ABytes (b : string)
| AList (l : list string).

(** The caller's [**kwargs]: compression and storage options, under names
    other than those of the arguments the dumpers pass themselves. *)
Inductive optval :=
| OStr (s : string)
| OInt (z : Z)
| OBool (b : bool).

Abbreviation options := (list (string * optval)).

Record dataset := Dataset {
  contents : payload;
  dtype : option h5dtype;
  kwds : options;
  attrs : gmap string attr
}.

Abbreviation group := (gmap string dataset).

(** The [data=] argument of [create_dataset]: one object, or a list. *)
Inductive pydata :=
| DObject (py_obj : value)
| DList (obj : pylist).

(** ['data_%i' % call_id] *)
Definition data_name (call_id : Z) : string := "data_" ++ pretty call_id.

(** The value an unwritten slot of a dataset of the given dtype reads as. *)
Definition fill_value (dt : option h5dtype) : scalar :=
  match dt with
  | Some DtVlenStr => SStr ""
  | Some (DtType TStr) => SStr ""
  | Some (DtType TBytes) => SBytes ""
  | Some (DtType TInt) => SInt 0
  | Some (DtType TBool) => SBool false
  | Some (DtType TComplex) => SComplex 0 0
  | _ => SFloat 0
  end.

(** [d.attrs[key] = v] for the dataset [d] stored under [name]. *)
Definition attrs_set (h_group : group) (name key : string) (v : attr) : group :=
  alter (fun d => Dataset (contents d) (dtype d) (kwds d) (<[key := v]> (attrs d)))
        name h_group.

(** [dset[i] = x] for the dataset [dset] stored under [name]. *)
Definition setitem (h_group : group) (name : string) (i : nat) (x : scalar)
  : result group :=
  match h_group !! name with
  | None => Raise KeyError
  | Some d =>
      match contents d with
      | PArray l =>
          if decide (i < length l)%nat
          then Ok (<[name := Dataset (PArray (<[i := x]> l)) (dtype d) (kwds d) (attrs d)]>
                     h_group)
          else Raise IndexError
      | PScalar _ => Raise TypeError
      | PNested _ => Raise TypeError
      end
  end.

(** [h_node.attrs[key]] *)
Definition attrs_get (h_node : dataset) (key : string) : result attr :=
  match attrs h_node !! key with
  | Some a => Ok a
  | None => Raise KeyError
  end.

(** A key handed to a dictionary of byte-string keys. *)
Inductive pykey :=
| KBytes (b : string)
| KInt (z : Z).

(** [a[0]] for an attribute value [a]; indexing a byte string gives the
    code of its first byte. *)
Definition attr_first (a : attr) : result pykey :=
  match a with
  | AList (t :: _) => Ok (KBytes t)
  | AList [] => Raise IndexError
  | ABytes (String c _) => Ok (KInt (Z.of_N (Ascii.N_of_ascii c)))
  | ABytes EmptyString => Raise IndexError
  end.

(** Modelled from the spec: [hickle.helpers.get_type_and_data], the shared
    node-read helper, whose source is not part of this module.  It reads the
    tag held in the length-1 [type] attribute and the payload of the node,
    and mutates nothing. *)
Definition get_type_and_data (h_node : dataset) : result (pykey * payload) :=
  do a <~ attrs_get h_node "type";
  do py_type <~ attr_first a;
  Ok (py_type, contents h_node).

(** ** Builtins *)

(** One element of a payload: a scalar, or a sub-array. *)
Inductive item :=
| IScalar (x : scalar)
| IArray (p : payload).

(** What the interpreter, numpy and h5py do where this development does not
    decide it: the builtin constructors on a payload of another kind; an
    object that is not a number stored as one scalar; a flat list that is
    not of one kind, or holds an integer outside 64 bits, turned into an
    array (it may be refused, or its elements converted); a list of arrays
    stacked into one; the exception of a refusal; and the set built from
    slots on which equality is not that of the bit patterns. *)
Class Runtime := {
  rt_int : payload -> result Z;
  rt_float : payload -> result float;
  rt_bool : payload -> result bool;
  rt_complex : payload -> result (float * float);
  rt_bytes : item -> result string;
  rt_str : item -> string;
  rt_data : value -> result payload;
  rt_array : list scalar -> result payload;
  rt_stack : list payload -> result payload;
  rt_refusal : exn;
  rt_set : list scalar -> gset scalar
}.

(** [list(data)], also the iteration behind [tuple(data)] and [set(data)]. *)
Definition iter_payload (data : payload) : result pylist :=
  match data with
  | PArray l => Ok (Flat l)
  | PNested rows => Ok (Rows rows)
  | PScalar (SBytes b) => Ok (Flat (code_points b))
  | PScalar (SStr s) => Ok (Flat (characters s))
  | PScalar _ => Raise TypeError
  end.

(** [data[0]] *)
Definition getitem0 (data : payload) : result item :=
  match data with
  | PArray (x :: _) => Ok (IScalar x)
  | PArray [] => Raise IndexError
  | PNested (r :: _) => Ok (IArray r)
  | PNested [] => Raise IndexError
  | PScalar (SBytes b) =>
      match code_points b with
      | x :: _ => Ok (IScalar x)
      | [] => Raise IndexError
      end
  | PScalar (SStr s) =>
      match characters s with
      | x :: _ => Ok (IScalar x)
      | [] => Raise IndexError
      end
  | PScalar _ => Raise IndexError
  end.

Section Loaders.
Context {rt : Runtime}.

(** [int(data)], [float(data)], [bool(data)], [complex(data)].  An array of
    two or more elements is converted to no scalar: the numeric
    constructors raise [TypeError] on it, and its truth value is a
    [ValueError]. *)
Definition py_int (data : payload) : result value :=
  match data with
  | PScalar (SInt z) => Ok (VInt z)
  | PScalar (SBool b) => Ok (VInt (if b then 1 else 0))
  | PArray (_ :: _ :: _) => Raise TypeError
  | _ => do z <~ rt_int data; Ok (VInt z)
  end.

Definition py_float (data : payload) : result value :=
  match data with
  | PScalar (SFloat f) => Ok (VFloat f)
  | PArray (_ :: _ :: _) => Raise TypeError
  | _ => do f <~ rt_float data; Ok (VFloat f)
  end.

Definition py_bool (data : payload) : result value :=
  match data with
  | PScalar (SBool b) => Ok (VBool b)
  | PScalar (SInt z) => Ok (VBool (negb (Z.eqb z 0)))
  | PArray (_ :: _ :: _) => Raise ValueError
  | _ => do b <~ rt_bool data; Ok (VBool b)
  end.

Definition py_complex (data : payload) : result value :=
  match data with
  | PScalar (SComplex re im) => Ok (VComplex re im)
  | PArray (_ :: _ :: _) => Raise TypeError
  | _ => do c <~ rt_complex data; Ok (VComplex (fst c) (snd c))
  end.

(** [bytes(x)] and [str(x)] *)
Definition py_bytes (x : item) : result value :=
  match x with
  | IScalar (SBytes b) => Ok (VBytes b)
  | _ => do b <~ rt_bytes x; Ok (VBytes b)
  end.

Definition py_str (x : item) : value :=
  match x with
  | IScalar (SStr s) => VStr s
  | _ => VStr (rt_str x)
  end.

(** [set(data)] for the slots of a flat array: the set of the slots where
    they are of one kind and equality on them is that of their model. *)
Definition py_set (l : list scalar) : gset scalar :=
  if homogeneous l && forallb hash_exact l then list_to_set l else rt_set l.

(** ** The conversion of the data of a new dataset *)

(** The contents h5py stores for [data=py_obj, dtype=type(py_obj)]: an
    integer is stored in 64 bits and is refused outside them. *)
Definition scalar_data (py_obj : value) : result payload :=
  match py_obj with
  | VInt z => if int64 z then Ok (PScalar (SInt z)) else Raise OverflowError
  | VFloat f => Ok (PScalar (SFloat f))
  | VBool b => Ok (PScalar (SBool b))
  | VComplex re im => Ok (PScalar (SComplex re im))
  | _ => rt_data py_obj
  end.

(** The array numpy builds from a flat list: a byte string with a NUL is
    refused; a list of one kind whose integers fit 64 bits is kept slot by
    slot; numpy decides on the others. *)
Definition array_data (l : list scalar) : result payload :=
  if existsb has_nul l then Raise rt_refusal
  else if homogeneous l && forallb in_range l then Ok (PArray l)
  else rt_array l.

Definition store_data (data : pydata) : result payload :=
  match data with
  | DObject py_obj => scalar_data py_obj
  | DList (Flat l) => array_data l
  | DList (Rows rows) => rt_stack rows
  end.

(** [h_group.create_dataset(name, shape=, dtype=, data=, **kwargs)]: the
    data are converted first; then the name must be free; the contents are
    the converted data when data are given and an array of [shape] fill
    values otherwise.  The new dataset has no attributes. *)
Definition create_dataset (h_group : group) (name : string)
    (shape : option nat) (dt : option h5dtype) (data : option pydata)
    (kwargs : options) : result group :=
  match data with
  | Some d =>
      do c <~ store_data d;
      match h_group !! name with
      | Some _ => Raise ValueError
      | None => Ok (<[name := Dataset c dt kwargs ∅]> h_group)
      end
  | None =>
      match h_group !! name with
      | Some _ => Raise ValueError
      | None =>
          match shape with
          | Some n =>
              Ok (<[name := Dataset (PArray (replicate n (fill_value dt))) dt kwargs ∅]>
                    h_group)
          | None => Raise TypeError
          end
      end
  end.

(** ** Dumpers *)

Definition create_listlike_dataset (py_obj : value) (h_group : group)
    (call_id : Z) (kwargs : options) : result group :=
  let dtype := str_of_type (type_of py_obj) in
  do obj <~ list_of_value py_obj;
  do g <~ create_dataset h_group (data_name call_id) None None
            (Some (DList obj)) kwargs;
  Ok (attrs_set g (data_name call_id) "type" (AList [bytes_ascii dtype])).

Definition create_python_dtype_dataset (py_obj : value) (h_group : group)
    (call_id : Z) (kwargs : options) : result group :=
  do g <~ create_dataset h_group (data_name call_id) None
            (Some (DtType (type_of py_obj))) (Some (DObject py_obj)) [];
  let g := attrs_set g (data_name call_id) "type" (AList ["python_dtype"]) in
  Ok (attrs_set g (data_name call_id) "python_subdtype"
        (ABytes (bytes_ascii (str_of_type (type_of py_obj))))).

Definition create_stringlike_dataset (py_obj : value) (h_group : group)
    (call_id : Z) (kwargs : options) : result group :=
  match py_obj with
  | VBytes b =>
      do g <~ create_dataset h_group (data_name call_id) None None
                (Some (DList (Flat [SBytes b]))) kwargs;
      Ok (attrs_set g (data_name call_id) "type" (AList ["bytes"]))
  | VStr s =>
      let dt := DtVlenStr in
      do g <~ create_dataset h_group (data_name call_id) (Some 1%nat) (Some dt)
                None kwargs;
      do g <~ setitem g (data_name call_id) 0 (SStr s);
      Ok (attrs_set g (data_name call_id) "type" (AList ["string"]))
  | _ => Ok h_group
  end.

Definition create_none_dataset (py_obj : value) (h_group : group)
    (call_id : Z) (kwargs : options) : result group :=
  do g <~ create_dataset h_group (data_name call_id) None None
            (Some (DList (Flat [SInt 0]))) kwargs;
  Ok (attrs_set g (data_name call_id) "type" (AList ["none"])).

(** ** Loaders *)

(** [list(data)] and [tuple(data)] keep the elements in order; the rows of
    an array of more dimensions are arrays.  [set(data)] needs hashable
    elements, which arrays are not. *)
Definition list_of_items (obj : pylist) : value :=
  match obj with
  | Flat l => VList l
  | Rows rows => VListOf rows
  end.

Definition tuple_of_items (obj : pylist) : value :=
  match obj with
  | Flat l => VTuple l
  | Rows rows => VTupleOf rows
  end.

Definition set_of_items (obj : pylist) : result value :=
  match obj with
  | Flat l => Ok (VSet (py_set l))
  | Rows _ => Raise TypeError
  end.

Definition load_list_dataset (h_node : dataset) : result value :=
  do td <~ get_type_and_data h_node;
  do obj <~ iter_payload (snd td);
  Ok (list_of_items obj).

Definition load_tuple_dataset (h_node : dataset) : result value :=
  do td <~ get_type_and_data h_node;
  do obj <~ iter_payload (snd td);
  Ok (tuple_of_items obj).

Definition load_set_dataset (h_node : dataset) : result value :=
  do td <~ get_type_and_data h_node;
  do obj <~ iter_payload (snd td);
  set_of_items obj.

Definition load_bytes_dataset (h_node : dataset) : result value :=
  do td <~ get_type_and_data h_node;
  do x <~ getitem0 (snd td);
  py_bytes x.

Definition load_string_dataset (h_node : dataset) : result value :=
  do td <~ get_type_and_data h_node;
  do x <~ getitem0 (snd td);
  Ok (py_str x).

(** [unicode] is not a name of Python 3: the call raises before its
    argument is read. *)
Definition load_unicode_dataset (h_node : dataset) : result value :=
  do td <~ get_type_and_data h_node;
  Raise NameError.

Definition load_none_dataset (h_node : dataset) : result value :=
  Ok VNone.

(** The local [type_dict] of [load_python_dtype_dataset]. *)
Definition type_dict : gmap string (payload -> result value) :=
  list_to_map
    [ ("<class 'int'>", py_int);
      ("<class 'float'>", py_float);
      ("<class 'bool'>", py_bool);
      ("<class 'complex'>", py_complex) ].

(** [type_dict.get(subtype)]: [None] for a missing key; a list is not
    hashable and cannot be looked up at all. *)
Definition type_dict_get (subtype : attr)
  : result (option (payload -> result value)) :=
  match subtype with
  | ABytes b => Ok (type_dict !! b)
  | AList _ => Raise TypeError
  end.

(** [tcast(data)]: calling [None] is a [TypeError]. *)
Definition call_tcast (tcast : option (payload -> result value))
    (data : payload) : result value :=
  match tcast with
  | Some f => f data
  | None => Raise TypeError
  end.

Definition load_python_dtype_dataset (h_node : dataset) : result value :=
  do td <~ get_type_and_data h_node;
  do subtype <~ attrs_get h_node "python_subdtype";
  do tcast <~ type_dict_get subtype;
  call_tcast tcast (snd td).

(** ** Registries *)

Definition types_dict
  : gmap pytype (value -> group -> Z -> options -> result group) :=
  list_to_map
    [ (TList, create_listlike_dataset);
      (TTuple, create_listlike_dataset);
      (TSet, create_listlike_dataset);
      (TBytes, create_stringlike_dataset);
      (TStr, create_stringlike_dataset);
      (TInt, create_python_dtype_dataset);
      (TFloat, create_python_dtype_dataset);
      (TBool, create_python_dtype_dataset);
      (TComplex, create_python_dtype_dataset);
      (TNoneType, create_none_dataset) ].

Definition hkl_types_dict : gmap string (dataset -> result value) :=
  list_to_map
    [ ("<class 'list'>", load_list_dataset);
      ("<class 'tuple'>", load_tuple_dataset);
      ("<class 'set'>", load_set_dataset);
      ("bytes", load_bytes_dataset);
      ("python_dtype", load_python_dtype_dataset);
      ("string", load_string_dataset);
      ("none", load_none_dataset) ].

(** ** Dispatch *)

(** Modelled from the spec: the encoder dispatch, whose source is not part
    of this module.  It selects the converter registered for the exact
    runtime type of the value and fails with [UnsupportedTypeError] when
    there is none. *)
Definition hkl_encode (py_obj : value) (h_group : group) (call_id : Z)
    (kwargs : options) : result group :=
  match types_dict !! type_of py_obj with
  | Some create => create py_obj h_group call_id kwargs
  | None => Raise UnsupportedTypeError
  end.

(** The lookup of a tag in the decoder registry; only byte strings are
    among its keys. *)
Definition hkl_types_dict_get (py_type : pykey)
  : option (dataset -> result value) :=
  match py_type with
  | KBytes b => hkl_types_dict !! b
  | KInt _ => None
  end.

(** Modelled from the spec: the decoder dispatch, whose source is not part
    of this module.  It reads the [type] attribute, fails with
    [UnknownTagError] when the tag is not registered, and applies the
    registered loader to the node. *)
Definition hkl_decode (h_node : dataset) : result value :=
  do td <~ get_type_and_data h_node;
  match hkl_types_dict_get (fst td) with
  | Some load => load h_node
  | None => Raise UnknownTagError
  end.

(** The binary64 patterns of [3.0] and [4.0]: the parts of [3+4j]. *)
Definition float_3 : float := 0x4008000000000000.
Definition float_4 : float := 0x4010000000000000.

(** The ten kinds the encoder registry has an entry for. *)
Definition supported_kinds : list pytype :=
  [TList; TTuple; TSet; TBytes; TStr; TInt; TFloat; TBool; TComplex; TNoneType].

(** The four kinds stored as zero-dimensional scalars. *)
Definition numeric_kinds : list pytype := [TInt; TFloat; TBool; TComplex].

(** The tags the dumpers write into the [type] attribute. *)
Definition encoder_tags : list string :=
  [str_of_type TList; str_of_type TTuple; str_of_type TSet;
   "bytes"; "string"; "python_dtype"; "none"].

(** Encoding into a free position, then decoding the node written there. *)
Definition roundtrip (py_obj : value) (h_group : group) (call_id : Z)
    (kwargs : options) : result value :=
  do g <~ hkl_encode py_obj h_group call_id kwargs;
  match g !! data_name call_id with
  | Some h_node => hkl_decode h_node
  | None => Raise KeyError
  end.

End Loaders.

(** A runtime that rejects every call left open above; [str] cannot raise
    and renders as the empty string, and the set of slots is the set of
    their bit patterns. *)
Definition strict_runtime : Runtime :=
  {| rt_int := fun _ => Raise TypeError;
     rt_float := fun _ => Raise TypeError;
     rt_bool := fun _ => Raise TypeError;
     rt_complex := fun _ => Raise TypeError;
     rt_bytes := fun _ => Raise TypeError;
     rt_str := fun _ => "";
     rt_data := fun _ => Raise TypeError;
     rt_array := fun _ => Raise TypeError;
     rt_stack := fun _ => Raise TypeError;
     rt_refusal := ValueError;
     rt_set := fun l => list_to_set l |}.

(** ** The store: creation and attribute writes *)

Lemma attrs_set_insert (h_group : group) name d key v :
  attrs_set (<[name := d]> h_group) name key v
  = <[name := Dataset (contents d) (dtype d) (kwds d) (<[key := v]> (attrs d))]>
      h_group.
Proof. unfold attrs_set. rewrite alter_insert_eq. reflexivity. Qed.

Lemma setitem_insert (h_group : group) name l dt kwargs a (i : nat) x :
  (i < length l)%nat ->
  setitem (<[name := Dataset (PArray l) dt kwargs a]> h_group) name i x
  = Ok (<[name := Dataset (PArray (<[i := x]> l)) dt kwargs a]> h_group).
Proof.
  intros Hi. unfold setitem. rewrite lookup_insert_eq. simpl.
  destruct (decide (i < length l)%nat) as [_ | Hn]; [| contradiction].
  rewrite insert_insert_eq. reflexivity.
Qed.

Lemma inserted_node_eq (h_group : group) name (n1 n2 : dataset) :
  Ok (<[name := n1]> h_group) = Ok (<[name := n2]> h_group) -> n1 = n2.
Proof.
  intros Heq.
  assert (Hg : <[name := n1]> h_group = <[name := n2]> h_group) by congruence.
  assert (Hn : Some n1 = Some n2)
    by (rewrite <- (lookup_insert_eq h_group name n1), Hg;
        apply lookup_insert_eq).
  congruence.
Qed.


(** ** Lists that the store keeps *)

Lemma clean_in_range (l : list scalar) :
  forallb clean l = true -> forallb in_range l = true.
Proof.
  induction l as [| x l IH]; simpl; [reflexivity |].
  intros [Hx Hl]%andb_true_iff. rewrite (IH Hl), andb_true_r.
  destruct x; simpl in *; auto.
Qed.

Lemma clean_no_nul (l : list scalar) :
  forallb clean l = true -> existsb has_nul l = false.
Proof.
  induction l as [| x l IH]; simpl; [reflexivity |].
  intros [Hx Hl]%andb_true_iff. rewrite (IH Hl), orb_false_r.
  destruct x; simpl in *; auto. rewrite Hx. reflexivity.
Qed.





Section Properties.
Context {rt : Runtime}.

Lemma array_data_kept (l : list scalar) :
  existsb has_nul l = false ->
  homogeneous l = true ->
  forallb in_range l = true ->
  array_data l = Ok (PArray l).
Proof.
  intros Hnul Hhom Hrange. unfold array_data.
  rewrite Hnul, Hhom, Hrange. reflexivity.
Qed.

Lemma array_data_clean (l : list scalar) :
  homogeneous l = true ->
  forallb clean l = true ->
  array_data l = Ok (PArray l).
Proof.
  intros Hhom Hclean.
  apply array_data_kept;
    [apply clean_no_nul | | apply clean_in_range]; assumption.
Qed.



Lemma array_data_bytes (b : string) :
  array_data [SBytes b]
  = if nul_free b then Ok (PArray [SBytes b]) else Raise rt_refusal.
Proof.
  unfold array_data. simpl. destruct (nul_free b); reflexivity.
Qed.

Lemma py_set_exact (l : list scalar) :
  homogeneous l = true ->
  forallb hash_exact l = true ->
  py_set l = list_to_set l.
Proof.
  intros Hhom Hexact. unfold py_set. rewrite Hhom, Hexact. reflexivity.
Qed.

Lemma create_dataset_data (h_group : group) name shape dt d c kwargs :
  store_data d = Ok c ->
  h_group !! name = None ->
  create_dataset h_group name shape dt (Some d) kwargs
  = Ok (<[name := Dataset c dt kwargs ∅]> h_group).
Proof.
  intros Hstore Hfree. unfold create_dataset.
  rewrite Hstore. simpl. rewrite Hfree. reflexivity.
Qed.

Lemma create_dataset_shape (h_group : group) name n dt kwargs :
  h_group !! name = None ->
  create_dataset h_group name (Some n) dt None kwargs
  = Ok (<[name := Dataset (PArray (replicate n (fill_value dt))) dt kwargs ∅]>
          h_group).
Proof. intros Hfree. unfold create_dataset. rewrite Hfree. reflexivity. Qed.

(** A dataset is created only under a free name, with the converted data
    as its contents. *)
Lemma create_dataset_ok (h_group g : group) name shape dt data kwargs :
  create_dataset h_group name shape dt data kwargs = Ok g ->
  h_group !! name = None
  /\ exists c,
       g = <[name := Dataset c dt kwargs ∅]> h_group
       /\ match data with
          | Some d => store_data d = Ok c
          | None => exists n, shape = Some n
                              /\ c = PArray (replicate n (fill_value dt))
          end.
Proof.
  unfold create_dataset. destruct data as [d |].
  - destruct (store_data d) as [c | e]; simpl; [| discriminate].
    destruct (h_group !! name); [discriminate |].
    intros [= <-]. split; [reflexivity |]. exists c. split; reflexivity.
  - destruct (h_group !! name); [discriminate |].
    destruct shape as [n |]; [| discriminate].
    intros [= <-]. split; [reflexivity |]. eexists. split; [reflexivity |].
    exists n. split; reflexivity.
Qed.

Lemma create_dataset_taken (h_group : group) name shape dt data kwargs g :
  h_group !! name <> None ->
  create_dataset h_group name shape dt data kwargs <> Ok g.
Proof.
  intros Htaken Hrun. apply create_dataset_ok in Hrun as [Hfree _].
  contradiction.
Qed.

(** ** The registries, entry by entry *)

Lemma types_dict_lookup (t : pytype) :
  types_dict !! t =
  match t with
  | TList | TTuple | TSet => Some create_listlike_dataset
  | TBytes | TStr => Some create_stringlike_dataset
  | TInt | TFloat | TBool | TComplex => Some create_python_dtype_dataset
  | TNoneType => Some create_none_dataset
  | TByteArray => None
  end.
Proof. destruct t; reflexivity. Qed.

Lemma types_dict_range (t : pytype) create :
  types_dict !! t = Some create ->
  create = create_listlike_dataset
  \/ create = create_stringlike_dataset
  \/ create = create_python_dtype_dataset
  \/ create = create_none_dataset.
Proof.
  rewrite types_dict_lookup.
  destruct t; intros [= <-]; tauto.
Qed.

Lemma hkl_types_dict_list : hkl_types_dict !! "<class 'list'>" = Some load_list_dataset.
Proof. reflexivity. Qed.

Lemma hkl_types_dict_tuple : hkl_types_dict !! "<class 'tuple'>" = Some load_tuple_dataset.
Proof. reflexivity. Qed.

Lemma hkl_types_dict_set : hkl_types_dict !! "<class 'set'>" = Some load_set_dataset.
Proof. reflexivity. Qed.

Lemma hkl_types_dict_bytes : hkl_types_dict !! "bytes" = Some load_bytes_dataset.
Proof. reflexivity. Qed.

Lemma hkl_types_dict_python_dtype :
  hkl_types_dict !! "python_dtype" = Some load_python_dtype_dataset.
Proof. reflexivity. Qed.

Lemma hkl_types_dict_string : hkl_types_dict !! "string" = Some load_string_dataset.
Proof. reflexivity. Qed.

Lemma hkl_types_dict_none : hkl_types_dict !! "none" = Some load_none_dataset.
Proof. reflexivity. Qed.

Lemma hkl_types_dict_range (tag : string) load :
  hkl_types_dict !! tag = Some load ->
  tag ∈ encoder_tags
  /\ (load = load_list_dataset \/ load = load_tuple_dataset
      \/ load = load_set_dataset \/ load = load_bytes_dataset
      \/ load = load_python_dtype_dataset \/ load = load_string_dataset
      \/ load = load_none_dataset).
Proof.
  unfold hkl_types_dict, encoder_tags. simpl.
  repeat (rewrite lookup_insert; case_decide;
          [subst tag; intros [= <-];
           split; [rewrite !elem_of_cons; tauto | tauto] |]).
  rewrite lookup_empty. discriminate.
Qed.

Lemma encoder_tags_registered (tag : string) :
  tag ∈ encoder_tags -> is_Some (hkl_types_dict !! tag).
Proof.
  unfold encoder_tags. rewrite !elem_of_cons, elem_of_nil.
  intros [-> | [-> | [-> | [-> | [-> | [-> | [-> | []]]]]]]]; eexists; reflexivity.
Qed.

Lemma type_dict_lookup (t : pytype) :
  type_dict !! str_of_type t =
  match t with
  | TInt => Some py_int
  | TFloat => Some py_float
  | TBool => Some py_bool
  | TComplex => Some py_complex
  | _ => None
  end.
Proof. destruct t; reflexivity. Qed.

Lemma type_dict_unknown (subtype : string) :
  ABytes subtype ∉ [ABytes "<class 'int'>"; ABytes "<class 'float'>";
                    ABytes "<class 'bool'>"; ABytes "<class 'complex'>"] ->
  type_dict !! subtype = None.
Proof.
  rewrite !not_elem_of_cons. intros (Hint & Hfloat & Hbool & Hcomplex & _).
  unfold type_dict. simpl.
  rewrite !lookup_insert_ne by congruence. apply lookup_empty.
Qed.

Lemma supported_kinds_registered (t : pytype) :
  t ∈ supported_kinds <-> is_Some (types_dict !! t).
Proof.
  rewrite types_dict_lookup. unfold supported_kinds. split.
  - intros Hin. destruct t; eauto.
    revert Hin. rewrite !elem_of_cons, elem_of_nil. intuition discriminate.
  - intros [f Hf]. destruct t; try discriminate;
      rewrite !elem_of_cons; intuition.
Qed.

Lemma supported_kinds_in (t : pytype) :
  t <> TByteArray -> t ∈ supported_kinds.
Proof.
  intros Hne. unfold supported_kinds. rewrite !elem_of_cons.
  destruct t; try congruence; intuition.
Qed.

Lemma numeric_kinds_registered (t : pytype) :
  t ∈ numeric_kinds -> types_dict !! t = Some create_python_dtype_dataset.
Proof.
  rewrite types_dict_lookup. unfold numeric_kinds.
  rewrite !elem_of_cons, elem_of_nil.
  destruct t; intros Ht; try reflexivity; exfalso; intuition congruence.
Qed.

Lemma numeric_kinds_constructors (t : pytype) :
  t ∈ numeric_kinds <-> is_Some (type_dict !! str_of_type t).
Proof.
  rewrite type_dict_lookup. unfold numeric_kinds.
  rewrite !elem_of_cons, elem_of_nil.
  destruct t; split; intros Ht; eauto;
    try (destruct Ht as [f Hf]; discriminate);
    try (exfalso; intuition congruence); tauto.
Qed.

(** ** What each dumper writes, and when *)

Lemma create_listlike_dataset_fresh py_obj (h_group : group) call_id kwargs obj c :
  h_group !! data_name call_id = None ->
  list_of_value py_obj = Ok obj ->
  store_data (DList obj) = Ok c ->
  create_listlike_dataset py_obj h_group call_id kwargs
  = Ok (<[data_name call_id :=
           Dataset c None kwargs
             (<["type" := AList [str_of_type (type_of py_obj)]]> ∅)]> h_group).
Proof.
  intros Hfree Hobj Hstore. unfold create_listlike_dataset.
  rewrite Hobj. cbn [rbind].
  rewrite (create_dataset_data _ _ _ _ _ c) by assumption. cbn [rbind].
  rewrite attrs_set_insert. reflexivity.
Qed.

Lemma create_listlike_dataset_ok py_obj (h_group g : group) call_id kwargs :
  create_listlike_dataset py_obj h_group call_id kwargs = Ok g ->
  h_group !! data_name call_id = None
  /\ exists obj c,
       list_of_value py_obj = Ok obj
       /\ store_data (DList obj) = Ok c
       /\ g = <[data_name call_id :=
                 Dataset c None kwargs
                   (<["type" := AList [str_of_type (type_of py_obj)]]> ∅)]>
                h_group.
Proof.
  unfold create_listlike_dataset.
  destruct (list_of_value py_obj) as [obj | e]; cbn [rbind]; [| discriminate].
  destruct (create_dataset _ _ _ _ _ _) as [g0 | e] eqn:Hcreate;
    cbn [rbind]; [| discriminate].
  apply create_dataset_ok in Hcreate as (Hfree & c & -> & Hstore).
  rewrite attrs_set_insert. intros [= <-].
  split; [exact Hfree |]. exists obj, c. repeat split. exact Hstore.
Qed.

Lemma create_python_dtype_dataset_fresh py_obj (h_group : group) call_id kwargs c :
  h_group !! data_name call_id = None ->
  scalar_data py_obj = Ok c ->
  create_python_dtype_dataset py_obj h_group call_id kwargs
  = Ok (<[data_name call_id :=
           Dataset c (Some (DtType (type_of py_obj))) []
             (<["python_subdtype" := ABytes (str_of_type (type_of py_obj))]>
                (<["type" := AList ["python_dtype"]]> ∅))]> h_group).
Proof.
  intros Hfree Hdata. unfold create_python_dtype_dataset.
  rewrite (create_dataset_data _ _ _ _ _ c) by assumption. cbn [rbind].
  rewrite !attrs_set_insert. reflexivity.
Qed.

Lemma create_python_dtype_dataset_ok py_obj (h_group g : group) call_id kwargs :
  create_python_dtype_dataset py_obj h_group call_id kwargs = Ok g ->
  h_group !! data_name call_id = None
  /\ exists c,
       scalar_data py_obj = Ok c
       /\ g = <[data_name call_id :=
                 Dataset c (Some (DtType (type_of py_obj))) []
                   (<["python_subdtype" := ABytes (str_of_type (type_of py_obj))]>
                      (<["type" := AList ["python_dtype"]]> ∅))]> h_group.
Proof.
  unfold create_python_dtype_dataset.
  destruct (create_dataset _ _ _ _ _ _) as [g0 | e] eqn:Hcreate;
    cbn [rbind]; [| discriminate].
  apply create_dataset_ok in Hcreate as (Hfree & c & -> & Hstore).
  rewrite !attrs_set_insert. intros [= <-].
  split; [exact Hfree |]. exists c. split; [exact Hstore | reflexivity].
Qed.

Lemma create_stringlike_dataset_bytes b (h_group : group) call_id kwargs :
  nul_free b = true ->
  h_group !! data_name call_id = None ->
  create_stringlike_dataset (VBytes b) h_group call_id kwargs
  = Ok (<[data_name call_id :=
           Dataset (PArray [SBytes b]) None kwargs
             (<["type" := AList ["bytes"]]> ∅)]> h_group).
Proof.
  intros Hnul Hfree. unfold create_stringlike_dataset.
  rewrite (create_dataset_data _ _ _ _ _ (PArray [SBytes b]));
    [| simpl; rewrite array_data_bytes, Hnul; reflexivity | exact Hfree].
  cbn [rbind]. rewrite attrs_set_insert. reflexivity.
Qed.

Lemma create_stringlike_dataset_str s (h_group : group) call_id kwargs :
  h_group !! data_name call_id = None ->
  create_stringlike_dataset (VStr s) h_group call_id kwargs
  = Ok (<[data_name call_id :=
           Dataset (PArray [SStr s]) (Some DtVlenStr) kwargs
             (<["type" := AList ["string"]]> ∅)]> h_group).
Proof.
  intros Hfree. unfold create_stringlike_dataset.
  rewrite create_dataset_shape by exact Hfree. cbn [rbind].
  rewrite setitem_insert by (simpl; lia). cbn [rbind].
  rewrite attrs_set_insert. reflexivity.
Qed.

Lemma create_stringlike_dataset_ok py_obj (h_group g : group) call_id kwargs :
  create_stringlike_dataset py_obj h_group call_id kwargs = Ok g ->
  ((type_of py_obj ∉ [TBytes; TStr]) /\ g = h_group)
  \/ (h_group !! data_name call_id = None
      /\ ((exists b, py_obj = VBytes b /\ nul_free b = true
                     /\ g = <[data_name call_id :=
                               Dataset (PArray [SBytes b]) None kwargs
                                 (<["type" := AList ["bytes"]]> ∅)]> h_group)
          \/ (exists s, py_obj = VStr s
                        /\ g = <[data_name call_id :=
                                  Dataset (PArray [SStr s]) (Some DtVlenStr) kwargs
                                    (<["type" := AList ["string"]]> ∅)]> h_group))).
Proof.
  intros Hrun.
  destruct py_obj as [| | | b | s | | | | | | | |];
    try (left; split;
         [rewrite !not_elem_of_cons; repeat split; try discriminate;
          apply not_elem_of_nil
         | revert Hrun; intros [= <-]; reflexivity]).
  - right. revert Hrun. unfold create_stringlike_dataset.
    destruct (create_dataset _ _ _ _ _ _) as [g0 | e] eqn:Hcreate;
      cbn [rbind]; [| discriminate].
    apply create_dataset_ok in Hcreate as (Hfree & c & -> & Hstore).
    simpl in Hstore. rewrite array_data_bytes in Hstore.
    destruct (nul_free b) eqn:Hnul; [| discriminate].
    injection Hstore as <-. rewrite attrs_set_insert. intros [= <-].
    split; [exact Hfree |]. left. exists b.
    split; [reflexivity |]. split; [assumption || reflexivity | reflexivity].
  - right. revert Hrun.
    destruct (h_group !! data_name call_id) as [taken |] eqn:Hslot.
    + unfold create_stringlike_dataset, create_dataset. rewrite Hslot.
      discriminate.
    + rewrite create_stringlike_dataset_str by exact Hslot. intros [= <-].
      split; [reflexivity |]. right. exists s. split; reflexivity.
Qed.

Lemma create_none_dataset_fresh py_obj (h_group : group) call_id kwargs :
  h_group !! data_name call_id = None ->
  create_none_dataset py_obj h_group call_id kwargs
  = Ok (<[data_name call_id :=
           Dataset (PArray [SInt 0]) None kwargs
             (<["type" := AList ["none"]]> ∅)]> h_group).
Proof.
  intros Hfree. unfold create_none_dataset.
  rewrite (create_dataset_data _ _ _ _ _ (PArray [SInt 0]))
    by (first [reflexivity | exact Hfree]).
  cbn [rbind]. rewrite attrs_set_insert. reflexivity.
Qed.

Lemma create_none_dataset_ok py_obj (h_group g : group) call_id kwargs :
  create_none_dataset py_obj h_group call_id kwargs = Ok g ->
  h_group !! data_name call_id = None
  /\ g = <[data_name call_id :=
            Dataset (PArray [SInt 0]) None kwargs
              (<["type" := AList ["none"]]> ∅)]> h_group.
Proof.
  intros Hrun.
  destruct (h_group !! data_name call_id) as [taken |] eqn:Hslot.
  - exfalso. revert Hrun. unfold create_none_dataset.
    destruct (create_dataset _ _ _ _ _ _) as [g0 | e] eqn:Hcreate;
      cbn [rbind]; [| discriminate].
    apply create_dataset_ok in Hcreate as (Hfree & _). congruence.
  - rewrite create_none_dataset_fresh in Hrun by exact Hslot.
    injection Hrun as <-. split; reflexivity.
Qed.

(** ** What each loader returns *)

Lemma get_type_and_data_tag (h_node : dataset) tag rest :
  attrs h_node !! "type" = Some (AList (tag :: rest)) ->
  get_type_and_data h_node = Ok (KBytes tag, contents h_node).
Proof.
  intros Htype. unfold get_type_and_data, attrs_get. rewrite Htype. reflexivity.
Qed.

Lemma hkl_decode_tag (h_node : dataset) tag rest load :
  attrs h_node !! "type" = Some (AList (tag :: rest)) ->
  hkl_types_dict !! tag = Some load ->
  hkl_decode h_node = load h_node.
Proof.
  intros Htype Hload. unfold hkl_decode.
  rewrite (get_type_and_data_tag _ _ _ Htype). simpl. rewrite Hload. reflexivity.
Qed.

Lemma load_list_dataset_array (h_node : dataset) tag rest l :
  attrs h_node !! "type" = Some (AList (tag :: rest)) ->
  contents h_node = PArray l ->
  load_list_dataset h_node = Ok (VList l).
Proof.
  intros Htype Hdata. unfold load_list_dataset.
  rewrite (get_type_and_data_tag _ _ _ Htype). simpl. rewrite Hdata. reflexivity.
Qed.

Lemma load_tuple_dataset_array (h_node : dataset) tag rest l :
  attrs h_node !! "type" = Some (AList (tag :: rest)) ->
  contents h_node = PArray l ->
  load_tuple_dataset h_node = Ok (VTuple l).
Proof.
  intros Htype Hdata. unfold load_tuple_dataset.
  rewrite (get_type_and_data_tag _ _ _ Htype). simpl. rewrite Hdata. reflexivity.
Qed.

Lemma load_set_dataset_array (h_node : dataset) tag rest l :
  attrs h_node !! "type" = Some (AList (tag :: rest)) ->
  contents h_node = PArray l ->
  load_set_dataset h_node = Ok (VSet (py_set l)).
Proof.
  intros Htype Hdata. unfold load_set_dataset.
  rewrite (get_type_and_data_tag _ _ _ Htype). simpl. rewrite Hdata. reflexivity.
Qed.

Lemma load_bytes_dataset_slot0 (h_node : dataset) tag rest b others :
  attrs h_node !! "type" = Some (AList (tag :: rest)) ->
  contents h_node = PArray (SBytes b :: others) ->
  load_bytes_dataset h_node = Ok (VBytes b).
Proof.
  intros Htype Hdata. unfold load_bytes_dataset.
  rewrite (get_type_and_data_tag _ _ _ Htype). simpl. rewrite Hdata. reflexivity.
Qed.

Lemma load_string_dataset_slot0 (h_node : dataset) tag rest s others :
  attrs h_node !! "type" = Some (AList (tag :: rest)) ->
  contents h_node = PArray (SStr s :: others) ->
  load_string_dataset h_node = Ok (VStr s).
Proof.
  intros Htype Hdata. unfold load_string_dataset.
  rewrite (get_type_and_data_tag _ _ _ Htype). simpl. rewrite Hdata. reflexivity.
Qed.

Lemma load_bytes_dataset_empty (h_node : dataset) tag rest :
  attrs h_node !! "type" = Some (AList (tag :: rest)) ->
  contents h_node = PArray [] ->
  load_bytes_dataset h_node = Raise IndexError.
Proof.
  intros Htype Hdata. unfold load_bytes_dataset.
  rewrite (get_type_and_data_tag _ _ _ Htype). simpl. rewrite Hdata. reflexivity.
Qed.

Lemma load_string_dataset_empty (h_node : dataset) tag rest :
  attrs h_node !! "type" = Some (AList (tag :: rest)) ->
  contents h_node = PArray [] ->
  load_string_dataset h_node = Raise IndexError.
Proof.
  intros Htype Hdata. unfold load_string_dataset.
  rewrite (get_type_and_data_tag _ _ _ Htype). simpl. rewrite Hdata. reflexivity.
Qed.

Lemma load_python_dtype_dataset_subtype (h_node : dataset) tag rest subtype :
  attrs h_node !! "type" = Some (AList (tag :: rest)) ->
  attrs h_node !! "python_subdtype" = Some (ABytes subtype) ->
  load_python_dtype_dataset h_node
  = call_tcast (type_dict !! subtype) (contents h_node).
Proof.
  intros Htype Hsub. unfold load_python_dtype_dataset.
  rewrite (get_type_and_data_tag _ _ _ Htype). simpl.
  unfold attrs_get. rewrite Hsub. reflexivity.
Qed.

Lemma hkl_decode_python_dtype (h_node : dataset) (subtype : string) :
  attrs h_node !! "type" = Some (AList ["python_dtype"]) ->
  attrs h_node !! "python_subdtype" = Some (ABytes subtype) ->
  hkl_decode h_node = call_tcast (type_dict !! subtype) (contents h_node).
Proof.
  intros Htype Hsub.
  rewrite (hkl_decode_tag _ _ _ _ Htype hkl_types_dict_python_dtype).
  exact (load_python_dtype_dataset_subtype _ _ _ _ Htype Hsub).
Qed.

Lemma load_python_dtype_dataset_no_subtype (h_node : dataset) tag rest :
  attrs h_node !! "type" = Some (AList (tag :: rest)) ->
  attrs h_node !! "python_subdtype" = None ->
  load_python_dtype_dataset h_node = Raise KeyError.
Proof.
  intros Htype Hsub. unfold load_python_dtype_dataset.
  rewrite (get_type_and_data_tag _ _ _ Htype). simpl.
  unfold attrs_get. rewrite Hsub. reflexivity.
Qed.

(** ** The node a dumper has written *)

(** Attribute lookups in the attribute dictionary a dumper has just
    written, and the decoding of the node it has just inserted. *)
Ltac python_dtype_attrs :=
  simpl;
  first [ apply lookup_insert_eq
        | rewrite lookup_insert_ne by discriminate; apply lookup_insert_eq
        | rewrite lookup_insert_ne by discriminate; apply lookup_empty ].

Ltac decode_written Hentry :=
  cbn [rbind]; rewrite lookup_insert_eq;
  erewrite hkl_decode_tag; [ | python_dtype_attrs | exact Hentry ].

(** The attributes and the options of the node [hkl_encode] has written,
    read off the type of the object. *)
Lemma hkl_encode_ok (py_obj : value) (h_group g : group) call_id kwargs :
  hkl_encode py_obj h_group call_id kwargs = Ok g ->
  type_of py_obj ∈ supported_kinds
  /\ h_group !! data_name call_id = None
  /\ exists h_node,
       g = <[data_name call_id := h_node]> h_group
       /\ attrs h_node !! "type"
          = Some (AList [match type_of py_obj with
                         | TList | TTuple | TSet => str_of_type (type_of py_obj)
                         | TBytes => "bytes"
                         | TStr => "string"
                         | TNoneType => "none"
                         | _ => "python_dtype"
                         end])
       /\ attrs h_node !! "python_subdtype"
          = match type_of py_obj with
            | TInt | TFloat | TBool | TComplex =>
                Some (ABytes (str_of_type (type_of py_obj)))
            | _ => None
            end
       /\ kwds h_node
          = match type_of py_obj with
            | TInt | TFloat | TBool | TComplex => []
            | _ => kwargs
            end.
Proof.
  unfold hkl_encode. rewrite types_dict_lookup. intros Hrun.
  destruct (type_of py_obj) eqn:Ht; try discriminate;
    (split; [apply supported_kinds_in; discriminate |]).
  1-3: apply create_listlike_dataset_ok in Hrun
         as (Hfree & obj & c & _ & _ & ->);
       rewrite Ht; (split; [exact Hfree |]); eexists;
       (split; [reflexivity |]); repeat split; python_dtype_attrs.
  1-2: apply create_stringlike_dataset_ok in Hrun
         as [[Hother _] | (Hfree & [(b & -> & _ & ->) | (s & -> & ->)])];
       [ exfalso; apply Hother; rewrite Ht; repeat constructor
       | try discriminate Ht; (split; [exact Hfree |]); eexists;
         (split; [reflexivity |]); repeat split; python_dtype_attrs .. ].
  1-4: apply create_python_dtype_dataset_ok in Hrun as (Hfree & c & _ & ->);
       rewrite Ht; (split; [exact Hfree |]); eexists;
       (split; [reflexivity |]); repeat split; python_dtype_attrs.
  apply create_none_dataset_ok in Hrun as (Hfree & ->).
  split; [exact Hfree |]. eexists.
  split; [reflexivity |]. repeat split; python_dtype_attrs.
Qed.

Lemma hkl_encode_registered create (py_obj : value) (h_group : group)
    call_id kwargs :
  types_dict !! type_of py_obj = Some create ->
  hkl_encode py_obj h_group call_id kwargs
  = create py_obj h_group call_id kwargs.
Proof. intros Hreg. unfold hkl_encode. rewrite Hreg. reflexivity. Qed.

(** A dumper that returns has either left the group alone or inserted one
    node under the name of its position, which was free. *)
Lemma dumper_writes (t : pytype) create py_obj (h_group g : group)
    call_id kwargs :
  types_dict !! t = Some create ->
  create py_obj h_group call_id kwargs = Ok g ->
  g = h_group
  \/ (h_group !! data_name call_id = None
      /\ exists h_node, g = <[data_name call_id := h_node]> h_group).
Proof.
  intros Hreg Hrun.
  destruct (types_dict_range _ _ Hreg) as [-> | [-> | [-> | ->]]].
  - apply create_listlike_dataset_ok in Hrun as (Hfree & obj & c & _ & _ & ->).
    right. split; [exact Hfree | eexists; reflexivity].
  - apply create_stringlike_dataset_ok in Hrun
      as [[_ ->] | (Hfree & [(b & _ & _ & ->) | (s & _ & ->)])].
    + left. reflexivity.
    + right. split; [exact Hfree | eexists; reflexivity].
    + right. split; [exact Hfree | eexists; reflexivity].
  - apply create_python_dtype_dataset_ok in Hrun as (Hfree & c & _ & ->).
    right. split; [exact Hfree | eexists; reflexivity].
  - apply create_none_dataset_ok in Hrun as (Hfree & ->).
    right. split; [exact Hfree | eexists; reflexivity].
Qed.

(** ** Round trips *)

Lemma roundtrip_str (s : string) (h_group : group) call_id kwargs :
  h_group !! data_name call_id = None ->
  roundtrip (VStr s) h_group call_id kwargs = Ok (VStr s).
Proof.
  intros Hfree. unfold roundtrip, hkl_encode. rewrite types_dict_lookup.
  cbn [type_of]. rewrite create_stringlike_dataset_str by done.
  decode_written hkl_types_dict_string.
  eapply load_string_dataset_slot0; [apply lookup_insert_eq | reflexivity].
Qed.

Lemma roundtrip_fresh (py_obj : value) (h_group : group) (call_id : Z)
    (kwargs : options) :
  type_of py_obj ∈ supported_kinds ->
  representative py_obj = true ->
  h_group !! data_name call_id = None ->
  roundtrip py_obj h_group call_id kwargs = Ok py_obj.
Proof.
  intros Hkind Hrep Hfree.
  destruct py_obj as [l | l | s | b | s | z | f | b | re im | | b | rows | rows];
    try discriminate Hrep; try (apply roundtrip_str; exact Hfree);
    unfold roundtrip, hkl_encode; rewrite types_dict_lookup; cbn [type_of];
    simpl in Hrep.
  - apply andb_true_iff in Hrep as [[Hhom Hclean]%andb_true_iff Hexact].
    rewrite (create_listlike_dataset_fresh _ _ _ _ (Flat l) (PArray l))
      by (first [done | apply array_data_clean; assumption]).
    decode_written hkl_types_dict_list.
    eapply load_list_dataset_array; [apply lookup_insert_eq | reflexivity].
  - apply andb_true_iff in Hrep as [[Hhom Hclean]%andb_true_iff Hexact].
    rewrite (create_listlike_dataset_fresh _ _ _ _ (Flat l) (PArray l))
      by (first [done | apply array_data_clean; assumption]).
    decode_written hkl_types_dict_tuple.
    eapply load_tuple_dataset_array; [apply lookup_insert_eq | reflexivity].
  - apply andb_true_iff in Hrep as [[Hhom Hclean]%andb_true_iff Hexact].
    rewrite (create_listlike_dataset_fresh _ _ _ _ (Flat (elements s))
               (PArray (elements s)))
      by (first [done | apply array_data_clean; assumption]).
    decode_written hkl_types_dict_set.
    erewrite load_set_dataset_array; [| apply lookup_insert_eq | reflexivity].
    rewrite py_set_exact by assumption.
    rewrite list_to_set_elements_L. reflexivity.
  - rewrite create_stringlike_dataset_bytes by done.
    decode_written hkl_types_dict_bytes.
    eapply load_bytes_dataset_slot0; [apply lookup_insert_eq | reflexivity].
  - rewrite (create_python_dtype_dataset_fresh _ _ _ _ (PScalar (SInt z)))
      by (first [done | simpl; rewrite Hrep; reflexivity]).
    decode_written hkl_types_dict_python_dtype.
    erewrite load_python_dtype_dataset_subtype; [| python_dtype_attrs ..].
    rewrite type_dict_lookup. reflexivity.
  - rewrite (create_python_dtype_dataset_fresh _ _ _ _ (PScalar (SFloat f)))
      by done.
    decode_written hkl_types_dict_python_dtype.
    erewrite load_python_dtype_dataset_subtype; [| python_dtype_attrs ..].
    rewrite type_dict_lookup. reflexivity.
  - rewrite (create_python_dtype_dataset_fresh _ _ _ _ (PScalar (SBool b)))
      by done.
    decode_written hkl_types_dict_python_dtype.
    erewrite load_python_dtype_dataset_subtype; [| python_dtype_attrs ..].
    rewrite type_dict_lookup. reflexivity.
  - rewrite (create_python_dtype_dataset_fresh _ _ _ _ (PScalar (SComplex re im)))
      by done.
    decode_written hkl_types_dict_python_dtype.
    erewrite load_python_dtype_dataset_subtype; [| python_dtype_attrs ..].
    rewrite type_dict_lookup. reflexivity.
  - rewrite create_none_dataset_fresh by done.
    decode_written hkl_types_dict_none.
    reflexivity.
Qed.

(** Every supported kind has representative values. *)
Lemma representative_inhabited (t : pytype) :
  t ∈ supported_kinds ->
  exists py_obj, type_of py_obj = t /\ representative py_obj = true.
Proof.
  unfold supported_kinds. rewrite !elem_of_cons, elem_of_nil.
  intros [-> | [-> | [-> | [-> | [-> | [-> | [-> | [-> | [-> | [-> | []]]]]]]]]]].
  - exists (VList [SInt 1; SInt 2]). split; reflexivity.
  - exists (VTuple [SInt 1; SInt 2]). split; reflexivity.
  - exists (VSet ∅). split; reflexivity.
  - exists (VBytes "ab"). split; reflexivity.
  - exists (VStr "ab"). split; reflexivity.
  - exists (VInt 1). split; reflexivity.
  - exists (VFloat float_3). split; reflexivity.
  - exists (VBool true). split; reflexivity.
  - exists (VComplex float_3 float_4). split; reflexivity.
  - exists VNone. split; reflexivity.
Qed.


(** C2. Tag completeness: whenever a converter registered in [types_dict]
    for the kind of a value returns, the node it has written carries a
    length-1 [type] attribute; its tag is the type name of a list, a tuple
    or a set, or one of [bytes], [string], [python_dtype], [none]; the tag
    is a key of [hkl_types_dict]; and decoding that node passes the tag
    lookup: it is the call of the loader registered for the tag. *)
Theorem tag_completeness (create : value -> group -> Z -> options -> result group)
    (py_obj : value) (h_group g : group) (call_id : Z) (kwargs : options) :
  types_dict !! type_of py_obj = Some create ->
  create py_obj h_group call_id kwargs = Ok g ->
  exists h_node tag load,
    g !! data_name call_id = Some h_node
    /\ attrs h_node !! "type" = Some (AList [tag])
    /\ tag ∈ encoder_tags
    /\ hkl_types_dict !! tag = Some load
    /\ hkl_decode h_node = load h_node.
Proof.
  intros Hreg Hrun.
  rewrite <- (hkl_encode_registered _ _ _ _ _ Hreg) in Hrun.
  apply hkl_encode_ok in Hrun as (_ & _ & h_node & -> & Htype & _ & _).
  assert (Htag : forall tag, attrs h_node !! "type" = Some (AList [tag]) ->
                   tag ∈ encoder_tags ->
                   exists n t load,
                     <[data_name call_id := h_node]> h_group !! data_name call_id
                     = Some n
                     /\ attrs n !! "type" = Some (AList [t])
                     /\ t ∈ encoder_tags
                     /\ hkl_types_dict !! t = Some load
                     /\ hkl_decode n = load n).
  { intros tag Hattr Hin.
    destruct (encoder_tags_registered tag Hin) as [load Hload].
    exists h_node, tag, load.
    split; [apply lookup_insert_eq |]. split; [exact Hattr |].
    split; [exact Hin |]. split; [exact Hload |].
    exact (hkl_decode_tag _ _ _ _ Hattr Hload). }
  destruct (type_of py_obj); apply (Htag _ Htype);
    unfold encoder_tags; repeat constructor.
Qed.

Lemma hkl_encode_returns (py_obj : value) (h_group : group) call_id kwargs :
  type_of py_obj ∈ supported_kinds ->
  representative py_obj = true ->
  h_group !! data_name call_id = None ->
  exists h_node,
    hkl_encode py_obj h_group call_id kwargs
    = Ok (<[data_name call_id := h_node]> h_group)
    /\ hkl_decode h_node = Ok py_obj.
Proof.
  intros Hkind Hrep Hfree.
  pose proof (roundtrip_fresh py_obj h_group call_id kwargs Hkind Hrep Hfree)
    as Hrt.
  unfold roundtrip in Hrt.
  destruct (hkl_encode py_obj h_group call_id kwargs) as [g | e] eqn:Henc;
    cbn [rbind] in Hrt; [| discriminate].
  apply hkl_encode_ok in Henc as (_ & _ & h_node & -> & _).
  rewrite lookup_insert_eq in Hrt. exists h_node. split; [reflexivity | exact Hrt].
Qed.

(** C3, as the code has it. A node tagged [python_dtype] whose
    [python_subdtype] attribute is none of the four numeric-kind tags does
    not decode and no value is returned: [type_dict.get] finds no
    constructor and the call of its result raises [TypeError].  The module
    raises no [UnknownSubtypeError]: the failure is the one of a recognised
    subtype whose constructor refuses its payload, as [int] does on an
    array of two or more elements. *)
Theorem unknown_subtype_fails (h_node : dataset) (subtype : attr) :
  attrs h_node !! "type" = Some (AList ["python_dtype"]) ->
  attrs h_node !! "python_subdtype" = Some subtype ->
  subtype ∉ [ABytes "<class 'int'>"; ABytes "<class 'float'>";
             ABytes "<class 'bool'>"; ABytes "<class 'complex'>"] ->
  load_python_dtype_dataset h_node = Raise TypeError
  /\ hkl_decode h_node = Raise TypeError
  /\ hkl_decode h_node <> Raise UnknownSubtypeError
  /\ (forall v, hkl_decode h_node <> Ok v)
  /\ (forall (other : dataset) x y l,
        attrs other !! "type" = Some (AList ["python_dtype"]) ->
        attrs other !! "python_subdtype" = Some (ABytes "<class 'int'>") ->
        contents other = PArray (x :: y :: l) ->
        hkl_decode other = hkl_decode h_node).
Proof.
  intros Htype Hsub Hunknown.
  assert (Hload : load_python_dtype_dataset h_node = Raise TypeError).
  { unfold load_python_dtype_dataset.
    rewrite (get_type_and_data_tag _ _ _ Htype). simpl.
    unfold attrs_get. rewrite Hsub. simpl.
    destruct subtype as [b | l]; simpl; [| reflexivity].
    rewrite (type_dict_unknown b Hunknown). reflexivity. }
  assert (Hdecode : hkl_decode h_node = Raise TypeError).
  { rewrite (hkl_decode_tag _ _ _ _ Htype hkl_types_dict_python_dtype).
    exact Hload. }
  split; [exact Hload |]. split; [exact Hdecode |].
  split; [rewrite Hdecode; discriminate |].
  split; [intros v Hv; rewrite Hdecode in Hv; discriminate |].
  intros other x y l Hotype Hosub Hdata.
  rewrite Hdecode, (hkl_decode_python_dtype _ _ Hotype Hosub), Hdata.
  reflexivity.
Qed.

(** C4, as the code has it. On the scalar-numeric path the caller's options
    are dropped: encoding with any options is encoding with none, in the
    node written and in whether the call returns.  On the placeholder path
    they are forwarded to the store: the node written for [None] records
    them. *)
Theorem options_dropped_on_scalars (py_obj : value) (h_group : group)
    (call_id : Z) (kwargs : options) :
  type_of py_obj ∈ numeric_kinds ->
  hkl_encode py_obj h_group call_id kwargs = hkl_encode py_obj h_group call_id []
  /\ (forall g, hkl_encode VNone h_group call_id kwargs = Ok g ->
        exists h_node, g !! data_name call_id = Some h_node
                       /\ kwds h_node = kwargs
                       /\ contents h_node = PArray [SInt 0]
                       /\ attrs h_node !! "type" = Some (AList ["none"])).
Proof.
  intros Hkind. split.
  - unfold hkl_encode. rewrite types_dict_lookup.
    destruct py_obj; try reflexivity;
      exfalso; revert Hkind; unfold numeric_kinds; cbn [type_of];
      rewrite !elem_of_cons, elem_of_nil; intuition discriminate.
  - intros g. unfold hkl_encode. rewrite types_dict_lookup. cbn [type_of].
    intros Hrun. apply create_none_dataset_ok in Hrun as (_ & ->).
    eexists. split; [apply lookup_insert_eq |].
    split; [reflexivity |]. split; [reflexivity |]. python_dtype_attrs.
Qed.

(** C10. The string-like dumper has a branch for byte strings and one for
    text strings and no other: on an object of any other type it returns
    without raising and leaves the group as it was. *)
Theorem create_stringlike_dataset_other (py_obj : value) (h_group : group)
    (call_id : Z) (kwargs : options) :
  type_of py_obj ∉ [TBytes; TStr] ->
  create_stringlike_dataset py_obj h_group call_id kwargs = Ok h_group.
Proof.
  rewrite !not_elem_of_cons. intros (Hbytes & Hstr & _).
  destruct py_obj; try reflexivity; cbn [type_of] in *; congruence.
Qed.


Lemma scalar_data_numeric (py_obj : value) (c : payload) :
  type_of py_obj ∈ numeric_kinds ->
  scalar_data py_obj = Ok c ->
  exists data, c = PScalar data
               /\ (forall b, data <> SBytes b) /\ (forall s, data <> SStr s).
Proof.
  unfold numeric_kinds. rewrite !elem_of_cons, elem_of_nil. intros Hkind.
  destruct py_obj; cbn [type_of] in Hkind;
    try (exfalso; intuition discriminate); simpl.
  - destruct (int64 z); [| discriminate]. intros [= <-].
    eexists. repeat split; discriminate.
  - intros [= <-]. eexists. repeat split; discriminate.
  - intros [= <-]. eexists. repeat split; discriminate.
  - intros [= <-]. eexists. repeat split; discriminate.
Qed.

Lemma tcast_kind (t : pytype) (data : payload) (v : value) :
  call_tcast (type_dict !! str_of_type t) data = Ok v ->
  type_of v = t /\ t ∈ numeric_kinds.
Proof.
  rewrite type_dict_lookup. unfold numeric_kinds. rewrite !elem_of_cons.
  destruct t; simpl; try discriminate; intros Hv;
    (split; [| intuition]); revert Hv;
    unfold py_int, py_float, py_bool, py_complex;
    repeat case_match; cbn [rbind]; try discriminate;
    try (intros [= <-]; reflexivity);
    match goal with
    | |- context [rbind ?r _] =>
        destruct r; cbn [rbind]; try discriminate; intros [= <-]; reflexivity
    end.
Qed.

(** C6. Subtype fidelity: [True] encoded and decoded is the boolean [True],
    whose type is [bool] and not [int], and [3+4j] encoded and decoded is
    the complex number of real part 3 and imaginary part 4.  Whenever a
    scalar-numeric value is written, it is written as a scalar under the
    one tag [python_dtype] with the name of its type in [python_subdtype];
    the kind of the value a [python_dtype] node decodes to is the one
    [python_subdtype] names, whatever the payload: a stored [True] read
    under the subtype of [int] is the integer 1, a stored 1 read under the
    subtype of [bool] is [True]. *)
Theorem subtype_fidelity (h_group : group) (call_id : Z) (kwargs : options) :
  h_group !! data_name call_id = None ->
  (exists v, roundtrip (VBool true) h_group call_id kwargs = Ok v
             /\ v = VBool true /\ type_of v = TBool /\ type_of v <> TInt)
  /\ roundtrip (VComplex float_3 float_4) h_group call_id kwargs
     = Ok (VComplex float_3 float_4)
  /\ (forall py_obj g, type_of py_obj ∈ numeric_kinds ->
        hkl_encode py_obj h_group call_id kwargs = Ok g ->
        exists h_node data,
          g = <[data_name call_id := h_node]> h_group
          /\ contents h_node = PScalar data
          /\ attrs h_node !! "type" = Some (AList ["python_dtype"])
          /\ attrs h_node !! "python_subdtype"
             = Some (ABytes (str_of_type (type_of py_obj))))
  /\ (forall (h_node : dataset) (t : pytype) (v : value),
        attrs h_node !! "type" = Some (AList ["python_dtype"]) ->
        attrs h_node !! "python_subdtype" = Some (ABytes (str_of_type t)) ->
        hkl_decode h_node = Ok v ->
        type_of v = t /\ t ∈ numeric_kinds)
  /\ (forall (h_node : dataset),
        attrs h_node !! "type" = Some (AList ["python_dtype"]) ->
        (contents h_node = PScalar (SBool true) ->
         attrs h_node !! "python_subdtype" = Some (ABytes (str_of_type TInt)) ->
         hkl_decode h_node = Ok (VInt 1))
        /\ (contents h_node = PScalar (SInt 1) ->
            attrs h_node !! "python_subdtype" = Some (ABytes (str_of_type TBool)) ->
            hkl_decode h_node = Ok (VBool true))).
Proof.
  intros Hfree. split; [| split; [| split; [| split]]].
  - exists (VBool true). split.
    + apply roundtrip_fresh;
        [apply supported_kinds_in; discriminate | reflexivity | exact Hfree].
    + repeat split. discriminate.
  - apply roundtrip_fresh;
      [apply supported_kinds_in; discriminate | reflexivity | exact Hfree].
  - intros py_obj g Hkind Hrun.
    rewrite (hkl_encode_registered _ _ _ _ _ (numeric_kinds_registered _ Hkind))
      in Hrun.
    apply create_python_dtype_dataset_ok in Hrun as (_ & c & Hdata & ->).
    destruct (scalar_data_numeric _ _ Hkind Hdata) as (data & -> & _).
    eexists _, data. split; [reflexivity |].
    split; [reflexivity |]. split; python_dtype_attrs.
  - intros h_node t v Htype Hsub Hv.
    rewrite (hkl_decode_python_dtype _ _ Htype Hsub) in Hv.
    exact (tcast_kind _ _ _ Hv).
  - intros h_node Htype. split; intros Hdata Hsub;
      rewrite (hkl_decode_python_dtype _ _ Htype Hsub), type_dict_lookup, Hdata;
      reflexivity.
Qed.

Lemma hkl_encode_bytes (b : string) (h_group : group) call_id kwargs :
  nul_free b = true ->
  h_group !! data_name call_id = None ->
  hkl_encode (VBytes b) h_group call_id kwargs
  = Ok (<[data_name call_id :=
           Dataset (PArray [SBytes b]) None kwargs
             (<["type" := AList ["bytes"]]> ∅)]> h_group).
Proof.
  intros Hnul Hfree. unfold hkl_encode. rewrite types_dict_lookup.
  apply create_stringlike_dataset_bytes; assumption.
Qed.

Lemma hkl_encode_str (s : string) (h_group : group) call_id kwargs :
  h_group !! data_name call_id = None ->
  hkl_encode (VStr s) h_group call_id kwargs
  = Ok (<[data_name call_id :=
           Dataset (PArray [SStr s]) (Some DtVlenStr) kwargs
             (<["type" := AList ["string"]]> ∅)]> h_group).
Proof.
  intros Hfree. unfold hkl_encode. rewrite types_dict_lookup.
  apply create_stringlike_dataset_str. exact Hfree.
Qed.

Lemma roundtrip_bytes_returns (b : string) (h_group : group) call_id kwargs v :
  roundtrip (VBytes b) h_group call_id kwargs = Ok v ->
  nul_free b = true /\ h_group !! data_name call_id = None.
Proof.
  unfold roundtrip.
  destruct (hkl_encode (VBytes b) h_group call_id kwargs) as [g | e] eqn:Henc;
    cbn [rbind]; [| discriminate].
  intros _. unfold hkl_encode in Henc. rewrite types_dict_lookup in Henc.
  cbn [type_of] in Henc.
  apply create_stringlike_dataset_ok in Henc
    as [[Hother _] | (Hfree & [(b' & [= <-] & Hnul & _) | (s & [=] & _)])].
  - exfalso. apply Hother. repeat constructor.
  - split; assumption.
Qed.

(** C7. Text and bytes stay apart: the byte string [b"ab"] is written under
    the tag [bytes] and decodes to the byte string [b"ab"]; the text string
    ["ab"] is written under the tag [string] and decodes to the text string
    ["ab"]; and no byte string comes back as a text string, nor a text
    string as a byte string. *)
Theorem text_bytes_distinct (h_group : group) (call_id : Z) (kwargs : options) :
  h_group !! data_name call_id = None ->
  (exists h_node,
      hkl_encode (VBytes "ab") h_group call_id kwargs
      = Ok (<[data_name call_id := h_node]> h_group)
      /\ attrs h_node !! "type" = Some (AList ["bytes"])
      /\ hkl_decode h_node = Ok (VBytes "ab"))
  /\ (exists h_node,
        hkl_encode (VStr "ab") h_group call_id kwargs
        = Ok (<[data_name call_id := h_node]> h_group)
        /\ attrs h_node !! "type" = Some (AList ["string"])
        /\ hkl_decode h_node = Ok (VStr "ab"))
  /\ (forall b v, roundtrip (VBytes b) h_group call_id kwargs = Ok v ->
                  v = VBytes b /\ type_of v = TBytes /\ forall s, v <> VStr s)
  /\ (forall s v, roundtrip (VStr s) h_group call_id kwargs = Ok v ->
                  v = VStr s /\ type_of v = TStr /\ forall b, v <> VBytes b).
Proof.
  intros Hfree. split; [| split; [| split]].
  - eexists. split; [apply hkl_encode_bytes; [reflexivity | exact Hfree] |].
    split; [python_dtype_attrs |].
    erewrite hkl_decode_tag; [| python_dtype_attrs | exact hkl_types_dict_bytes].
    eapply load_bytes_dataset_slot0; [python_dtype_attrs | reflexivity].
  - eexists. split; [apply hkl_encode_str; exact Hfree |].
    split; [python_dtype_attrs |].
    erewrite hkl_decode_tag; [| python_dtype_attrs | exact hkl_types_dict_string].
    eapply load_string_dataset_slot0; [python_dtype_attrs | reflexivity].
  - intros b v Hrt.
    destruct (roundtrip_bytes_returns _ _ _ _ _ Hrt) as [Hnul _].
    rewrite roundtrip_fresh in Hrt
      by (first [apply supported_kinds_in; discriminate | exact Hnul | exact Hfree]).
    injection Hrt as <-. repeat split. discriminate.
  - intros s v.
    rewrite roundtrip_str by exact Hfree.
    intros [= <-]. repeat split. discriminate.
Qed.

(** C8. Absence: a node tagged [none] decodes to [None] whatever it holds:
    [load_none_dataset] returns [None] without reading its node; and [None]
    encoded and decoded is [None]. *)
Theorem none_ignores_payload (h_node : dataset) :
  attrs h_node !! "type" = Some (AList ["none"]) ->
  hkl_decode h_node = Ok VNone
  /\ (forall other : dataset, load_none_dataset other = Ok VNone)
  /\ (forall (h_group : group) (call_id : Z) (kwargs : options),
        h_group !! data_name call_id = None ->
        roundtrip VNone h_group call_id kwargs = Ok VNone).
Proof.
  intros Htype. split; [| split].
  - rewrite (hkl_decode_tag _ _ _ _ Htype hkl_types_dict_none). reflexivity.
  - reflexivity.
  - intros h_group call_id kwargs Hfree.
    apply roundtrip_fresh;
      [apply supported_kinds_in; discriminate | reflexivity | exact Hfree].
Qed.

(** C9, as the code has it. The loaders do not check the length of the
    payload.  A [string] or [bytes] node holding an empty array does not
    decode: reading slot 0 raises [IndexError].  A longer array is not
    rejected: slot 0 is converted and the other slots are ignored.  A
    [none] node decodes to [None] whatever it holds. *)
Theorem payload_length_unchecked (h_node : dataset) (tag : string) :
  tag ∈ ["string"; "bytes"] ->
  attrs h_node !! "type" = Some (AList [tag]) ->
  (contents h_node = PArray [] ->
   hkl_decode h_node = Raise IndexError /\ forall v, hkl_decode h_node <> Ok v)
  /\ (forall s others, tag = "string" ->
        contents h_node = PArray (SStr s :: others) ->
        hkl_decode h_node = Ok (VStr s))
  /\ (forall b others, tag = "bytes" ->
        contents h_node = PArray (SBytes b :: others) ->
        hkl_decode h_node = Ok (VBytes b))
  /\ (forall other : dataset,
        attrs other !! "type" = Some (AList ["none"]) ->
        hkl_decode other = Ok VNone).
Proof.
  rewrite !elem_of_cons, elem_of_nil. intros Htag Htype.
  split; [| split; [| split]].
  - intros Hdata.
    assert (Hfail : hkl_decode h_node = Raise IndexError).
    { destruct Htag as [-> | [-> | []]].
      - rewrite (hkl_decode_tag _ _ _ _ Htype hkl_types_dict_string).
        exact (load_string_dataset_empty _ _ _ Htype Hdata).
      - rewrite (hkl_decode_tag _ _ _ _ Htype hkl_types_dict_bytes).
        exact (load_bytes_dataset_empty _ _ _ Htype Hdata). }
    split; [exact Hfail |]. intros v Hv. rewrite Hfail in Hv. discriminate.
  - intros s others -> Hdata.
    rewrite (hkl_decode_tag _ _ _ _ Htype hkl_types_dict_string).
    exact (load_string_dataset_slot0 _ _ _ _ _ Htype Hdata).
  - intros b others -> Hdata.
    rewrite (hkl_decode_tag _ _ _ _ Htype hkl_types_dict_bytes).
    exact (load_bytes_dataset_slot0 _ _ _ _ _ Htype Hdata).
  - intros other Hnone.
    rewrite (hkl_decode_tag _ _ _ _ Hnone hkl_types_dict_none). reflexivity.
Qed.
End Properties.

(** ** The dumpers and the group *)

Section Store.
Context {rt : Runtime}.

(** X1. Frame: whatever object a registered dumper is called on, when it
    returns every dataset that was in the group is still there and
    unchanged, every name but the one of the position holds what it held,
    and the group has grown by at most one dataset. *)
Theorem dumper_frame (t : pytype) create (py_obj : value) (h_group g : group)
    (call_id : Z) (kwargs : options) :
  types_dict !! t = Some create ->
  create py_obj h_group call_id kwargs = Ok g ->
  (forall name d, h_group !! name = Some d -> g !! name = Some d)
  /\ (forall name, name <> data_name call_id -> g !! name = h_group !! name)
  /\ (size h_group <= size g <= S (size h_group))%nat.
Proof.
  intros Hreg Hrun.
  destruct (dumper_writes _ _ _ _ _ _ _ Hreg Hrun)
    as [-> | (Hfree & h_node & ->)].
  - repeat split; auto.
  - split; [| split].
    + intros name d Hd. rewrite lookup_insert_ne; [exact Hd |].
      intros <-. rewrite Hfree in Hd. discriminate.
    + intros name Hne. apply lookup_insert_ne. congruence.
    + rewrite map_size_insert_None by exact Hfree. lia.
Qed.

Ltac written_attr :=
  simpl;
  first [ apply lookup_insert_eq
        | rewrite lookup_insert_ne by discriminate; apply lookup_insert_eq
        | rewrite lookup_insert_ne by discriminate; apply lookup_empty ].




(** X4. A dumped node survives later dumps: once an object has been dumped,
    whatever registered dumper is called afterwards, on whatever object,
    position and options, when it returns the node is still in the group,
    unchanged; for a representative object it still decodes to the
    object. *)
Theorem dumped_node_survives (py_obj : value) (h_group g1 : group)
    (call_id : Z) (kwargs : options) :
  hkl_encode py_obj h_group call_id kwargs = Ok g1 ->
  exists h_node,
    g1 !! data_name call_id = Some h_node
    /\ (representative py_obj = true -> hkl_decode h_node = Ok py_obj)
    /\ forall t create other g2 j k,
         types_dict !! t = Some create ->
         create other g1 j k = Ok g2 ->
         g2 !! data_name call_id = Some h_node.
Proof.
  intros Henc.
  pose proof (hkl_encode_ok _ _ _ _ _ Henc) as (Hkind & Hfree & h_node & -> & _).
  exists h_node. split; [apply lookup_insert_eq |]. split.
  - intros Hrep.
    destruct (hkl_encode_returns py_obj h_group call_id kwargs Hkind Hrep Hfree)
      as (h_node' & Henc' & Hdec).
    rewrite Henc in Henc'. apply inserted_node_eq in Henc'. subst h_node'.
    exact Hdec.
  - intros t create other g2 j k Hreg Hrun.
    destruct (dumper_writes _ _ _ _ _ _ _ Hreg Hrun)
      as [-> | (Hfj & other_node & ->)].
    + apply lookup_insert_eq.
    + rewrite lookup_insert_ne; [apply lookup_insert_eq |].
      intros Heq. rewrite <- Heq, lookup_insert_eq in Hfj. discriminate.
Qed.

(** X5. On the container and string paths the caller's options reach the
    store as they are: whenever a node is written for a list, a tuple, a
    set, a byte string or a text string, it records exactly the options of
    the call. *)
Theorem options_forwarded (py_obj : value) (h_group g : group) (call_id : Z)
    (kwargs : options) :
  type_of py_obj ∈ [TList; TTuple; TSet; TBytes; TStr] ->
  hkl_encode py_obj h_group call_id kwargs = Ok g ->
  exists h_node,
    g = <[data_name call_id := h_node]> h_group
    /\ kwds h_node = kwargs.
Proof.
  rewrite !elem_of_cons, elem_of_nil. intros Hkind Hrun.
  apply hkl_encode_ok in Hrun as (_ & _ & h_node & -> & _ & _ & Hkwds).
  exists h_node. split; [reflexivity |].
  destruct (type_of py_obj); try exact Hkwds; exfalso; intuition discriminate.
Qed.

(** X6. No loader entry is dead: a tag is a key of [hkl_types_dict] exactly
    when it is the tag of the node that the dumper of some supported object
    writes. *)
Theorem decoder_keys_are_written (tag : string) :
  is_Some (hkl_types_dict !! tag)
  <-> exists py_obj h_node,
        type_of py_obj ∈ supported_kinds
        /\ hkl_encode py_obj ∅ 0 [] = Ok (<[data_name 0 := h_node]> ∅)
        /\ attrs h_node !! "type" = Some (AList [tag]).
Proof.
  split.
  - intros [load Hload].
    destruct (hkl_types_dict_range _ _ Hload) as [Htag _].
    revert Htag. unfold encoder_tags. rewrite !elem_of_cons, elem_of_nil.
    intros [-> | [-> | [-> | [-> | [-> | [-> | [-> | []]]]]]]].
    + exists (VList []). eexists. split; [apply supported_kinds_in; discriminate |].
      split; [unfold hkl_encode; rewrite types_dict_lookup; cbn [type_of];
              apply (create_listlike_dataset_fresh _ _ _ _ (Flat []) (PArray []));
              done
             | written_attr].
    + exists (VTuple []). eexists. split; [apply supported_kinds_in; discriminate |].
      split; [unfold hkl_encode; rewrite types_dict_lookup; cbn [type_of];
              apply (create_listlike_dataset_fresh _ _ _ _ (Flat []) (PArray []));
              done
             | written_attr].
    + exists (VSet ∅). eexists. split; [apply supported_kinds_in; discriminate |].
      split; [unfold hkl_encode; rewrite types_dict_lookup; cbn [type_of];
              apply (create_listlike_dataset_fresh _ _ _ _ (Flat []) (PArray []));
              done
             | written_attr].
    + exists (VBytes ""). eexists. split; [apply supported_kinds_in; discriminate |].
      split; [apply hkl_encode_bytes; done |]. written_attr.
    + exists (VStr ""). eexists. split; [apply supported_kinds_in; discriminate |].
      split; [apply hkl_encode_str; done |]. written_attr.
    + exists (VInt 0). eexists. split; [apply supported_kinds_in; discriminate |].
      split.
      * unfold hkl_encode. rewrite types_dict_lookup. cbn [type_of].
        apply create_python_dtype_dataset_fresh; done.
      * written_attr.
    + exists VNone. eexists. split; [apply supported_kinds_in; discriminate |].
      split.
      * unfold hkl_encode. rewrite types_dict_lookup. cbn [type_of].
        apply create_none_dataset_fresh; done.
      * written_attr.
  - intros (py_obj & h_node & Hkind & Henc & Htype).
    pose proof (hkl_encode_ok _ _ _ _ _ Henc)
      as (_ & _ & h_node' & Hg & Htype' & _).
    assert (Heq : h_node = h_node').
    { apply (inserted_node_eq ∅ (data_name 0)). rewrite <- Hg. reflexivity. }
    subst h_node'. rewrite Htype in Htype'. injection Htype' as ->.
    apply encoder_tags_registered.
    destruct (type_of py_obj); unfold encoder_tags; repeat constructor.
Qed.

End Store.

(** ** The loaders and the node *)

Section Loading.
Context {rt : Runtime}.

Ltac written_attr :=
  simpl;
  first [ apply lookup_insert_eq
        | rewrite lookup_insert_ne by discriminate; apply lookup_insert_eq
        | rewrite lookup_insert_ne by discriminate; apply lookup_empty ].

Lemma get_type_and_data_reads (n1 n2 : dataset) :
  contents n1 = contents n2 ->
  attrs n1 !! "type" = attrs n2 !! "type" ->
  get_type_and_data n1 = get_type_and_data n2.
Proof.
  intros Hdata Htype. unfold get_type_and_data, attrs_get.
  rewrite Htype, Hdata. reflexivity.
Qed.

(** X7. Loading reads the payload and two attributes, nothing else: two
    nodes with the same contents, the same [type] attribute and the same
    [python_subdtype] attribute decode alike, whatever their dtype, the
    options they were created with and their other attributes. *)
Theorem hkl_decode_reads_only (n1 n2 : dataset) :
  contents n1 = contents n2 ->
  attrs n1 !! "type" = attrs n2 !! "type" ->
  attrs n1 !! "python_subdtype" = attrs n2 !! "python_subdtype" ->
  hkl_decode n1 = hkl_decode n2.
Proof.
  intros Hdata Htype Hsub.
  pose proof (get_type_and_data_reads n1 n2 Hdata Htype) as Hread.
  unfold hkl_decode. rewrite Hread.
  destruct (get_type_and_data n2) as [[py_type data] | e] eqn:Hread2;
    simpl; [| reflexivity].
  destruct py_type as [tag | z]; simpl; [| reflexivity].
  destruct (hkl_types_dict !! tag) as [load |] eqn:Hload; [| reflexivity].
  destruct (hkl_types_dict_range _ _ Hload)
    as [_ [-> | [-> | [-> | [-> | [-> | [-> | ->]]]]]]];
    unfold load_list_dataset, load_tuple_dataset, load_set_dataset,
      load_bytes_dataset, load_python_dtype_dataset, load_string_dataset,
      load_none_dataset, attrs_get;
    rewrite ?Hread, ?Hread2, ?Hsub; reflexivity.
Qed.


Ltac no_subtype Htype Hsub :=
  eapply load_python_dtype_dataset_no_subtype; [exact Htype | exact Hsub].

(** X10. The scalar loader on the nodes of the other dumpers: whenever a
    node is written for a list, a tuple, a set, a byte string, a text
    string or [None], it has no [python_subdtype] attribute, and the scalar
    loader raises [KeyError] on it. *)
Theorem load_python_dtype_dataset_other_nodes (py_obj : value)
    (h_group g : group) (call_id : Z) (kwargs : options) :
  type_of py_obj ∈ [TList; TTuple; TSet; TBytes; TStr; TNoneType] ->
  hkl_encode py_obj h_group call_id kwargs = Ok g ->
  exists h_node,
    g = <[data_name call_id := h_node]> h_group
    /\ attrs h_node !! "python_subdtype" = None
    /\ load_python_dtype_dataset h_node = Raise KeyError.
Proof.
  rewrite !elem_of_cons, elem_of_nil. intros Hkind Hrun.
  apply hkl_encode_ok in Hrun as (_ & _ & h_node & -> & Htype & Hsub & _).
  exists h_node. split; [reflexivity |].
  assert (Hnone : attrs h_node !! "python_subdtype" = None)
    by (destruct (type_of py_obj); try exact Hsub;
        exfalso; intuition discriminate).
  split; [exact Hnone |]. no_subtype Htype Hnone.
Qed.

(** X16. A scalar node under the wrong loader: whenever a node is written
    for an integer, a float, a boolean or a complex number, it holds a
    zero-dimensional scalar, which can be neither iterated nor indexed: the
    list, tuple and set loaders raise [TypeError] on it and the bytes and
    string loaders raise [IndexError]. *)
Theorem scalar_node_wrong_loader (py_obj : value) (h_group g : group)
    (call_id : Z) (kwargs : options) :
  type_of py_obj ∈ numeric_kinds ->
  hkl_encode py_obj h_group call_id kwargs = Ok g ->
  exists h_node,
    g = <[data_name call_id := h_node]> h_group
    /\ load_list_dataset h_node = Raise TypeError
    /\ load_tuple_dataset h_node = Raise TypeError
    /\ load_set_dataset h_node = Raise TypeError
    /\ load_bytes_dataset h_node = Raise IndexError
    /\ load_string_dataset h_node = Raise IndexError.
Proof.
  intros Hkind Hrun.
  rewrite (hkl_encode_registered _ _ _ _ _ (numeric_kinds_registered _ Hkind))
    in Hrun.
  apply create_python_dtype_dataset_ok in Hrun as (_ & c & Hdata & ->).
  destruct (scalar_data_numeric _ _ Hkind Hdata) as (data & -> & Hnb & Hns).
  eexists. split; [reflexivity |].
  unfold load_list_dataset, load_tuple_dataset, load_set_dataset,
    load_bytes_dataset, load_string_dataset.
  erewrite get_type_and_data_tag by written_attr.
  destruct data as [z | f | b | re im | b | s];
    try (exfalso; eapply Hnb; reflexivity);
    try (exfalso; eapply Hns; reflexivity);
    repeat split; reflexivity.
Qed.

(** X11. [load_unicode_dataset] is dead under Python 3: it returns a value
    on no node, and on a node that has its [type] tag it raises
    [NameError]; it is the loader of no key of [hkl_types_dict]. *)
Theorem load_unicode_dataset_never_returns (h_node : dataset) :
  (forall v, load_unicode_dataset h_node <> Ok v)
  /\ (forall tag rest,
        attrs h_node !! "type" = Some (AList (tag :: rest)) ->
        load_unicode_dataset h_node = Raise NameError)
  /\ (forall tag load,
        hkl_types_dict !! tag = Some load ->
        exists n v, load n = Ok v /\ load_unicode_dataset n <> Ok v).
Proof.
  assert (Hnever : forall n v, load_unicode_dataset n <> Ok v).
  { intros n v. unfold load_unicode_dataset.
    destruct (get_type_and_data n); discriminate. }
  split; [apply Hnever |]. split.
  - intros tag rest Htype. unfold load_unicode_dataset.
    rewrite (get_type_and_data_tag _ _ _ Htype). reflexivity.
  - intros tag load Hload.
    destruct (hkl_types_dict_range _ _ Hload)
      as [_ [-> | [-> | [-> | [-> | [-> | [-> | ->]]]]]]].
    + exists (Dataset (PArray []) None [] (<["type" := AList [tag]]> ∅)), (VList []).
      split; [| apply Hnever].
      eapply load_list_dataset_array; [apply lookup_insert_eq | reflexivity].
    + exists (Dataset (PArray []) None [] (<["type" := AList [tag]]> ∅)), (VTuple []).
      split; [| apply Hnever].
      eapply load_tuple_dataset_array; [apply lookup_insert_eq | reflexivity].
    + exists (Dataset (PArray []) None [] (<["type" := AList [tag]]> ∅)),
        (VSet (py_set [])).
      split; [| apply Hnever].
      eapply load_set_dataset_array; [apply lookup_insert_eq | reflexivity].
    + exists (Dataset (PArray [SBytes ""]) None [] (<["type" := AList [tag]]> ∅)),
        (VBytes "").
      split; [| apply Hnever].
      eapply load_bytes_dataset_slot0; [apply lookup_insert_eq | reflexivity].
    + exists (Dataset (PScalar (SInt 0)) None []
                (<["python_subdtype" := ABytes "<class 'int'>"]>
                   (<["type" := AList [tag]]> ∅))), (VInt 0).
      split; [| apply Hnever].
      erewrite load_python_dtype_dataset_subtype; [| written_attr | written_attr].
      reflexivity.
    + exists (Dataset (PArray [SStr ""]) None [] (<["type" := AList [tag]]> ∅)),
        (VStr "").
      split; [| apply Hnever].
      eapply load_string_dataset_slot0; [apply lookup_insert_eq | reflexivity].
    + exists (Dataset (PArray []) None [] ∅), VNone.
      split; [reflexivity | apply Hnever].
Qed.

Lemma size_list_to_set_le (l : list scalar) :
  (size (list_to_set l : gset scalar) <= length l)%nat.
Proof.
  induction l as [| x l IH].
  - rewrite list_to_set_nil, size_empty. simpl. lia.
  - rewrite list_to_set_cons, size_union_alt, size_singleton. simpl.
    assert (Hsub : (size (list_to_set l ∖ {[x]} : gset scalar)
                    <= size (list_to_set l : gset scalar))%nat)
      by (apply subseteq_size; intros y Hy;
          apply elem_of_difference in Hy as [Hy _]; exact Hy).
    lia.
Qed.

(** X12. Set collapse: on an array payload whose slots are of one kind,
    with equality decided by their bit patterns (integers, booleans, byte
    and text strings, floats other than NaN and the negative zero), the set
    loader returns the set of the slots: an element is in the result
    exactly when it is in the payload, the result has at most as many
    elements as the payload has slots, and as many when no slot repeats
    another. *)
Theorem load_set_dataset_collapses (h_node : dataset) tag rest
    (l : list scalar) :
  attrs h_node !! "type" = Some (AList (tag :: rest)) ->
  contents h_node = PArray l ->
  homogeneous l = true ->
  forallb hash_exact l = true ->
  exists s : gset scalar,
    load_set_dataset h_node = Ok (VSet s)
    /\ (forall x, x ∈ s <-> x ∈ l)
    /\ (size s <= length l)%nat
    /\ (NoDup l -> size s = length l).
Proof.
  intros Htype Hdata Hhom Hexact. exists (list_to_set l).
  split.
  - rewrite (load_set_dataset_array _ _ _ _ Htype Hdata).
    rewrite py_set_exact by assumption. reflexivity.
  - split; [intros x; apply elem_of_list_to_set |].
    split; [apply size_list_to_set_le | apply size_list_to_set].
Qed.



(** X15. The attributes name the kind: when the nodes written for two
    supported objects carry the same attributes, the two objects are of the
    same type. *)
Theorem attrs_determine_kind (v1 v2 : value) (h1 h2 : group) (i1 i2 : Z)
    (k1 k2 : options) (n1 n2 : dataset) :
  type_of v1 ∈ supported_kinds ->
  type_of v2 ∈ supported_kinds ->
  h1 !! data_name i1 = None ->
  h2 !! data_name i2 = None ->
  hkl_encode v1 h1 i1 k1 = Ok (<[data_name i1 := n1]> h1) ->
  hkl_encode v2 h2 i2 k2 = Ok (<[data_name i2 := n2]> h2) ->
  attrs n1 = attrs n2 ->
  type_of v1 = type_of v2.
Proof.
  intros Hk1 Hk2 Hf1 Hf2 Hr1 Hr2 Hattrs.
  pose proof (hkl_encode_ok _ _ _ _ _ Hr1) as (_ & _ & m1 & Hg1 & Ht1 & Hs1 & _).
  pose proof (hkl_encode_ok _ _ _ _ _ Hr2) as (_ & _ & m2 & Hg2 & Ht2 & Hs2 & _).
  assert (Hm1 : n1 = m1)
    by (apply (inserted_node_eq h1 (data_name i1)); rewrite <- Hg1; reflexivity).
  assert (Hm2 : n2 = m2)
    by (apply (inserted_node_eq h2 (data_name i2)); rewrite <- Hg2; reflexivity).
  subst m1 m2. rewrite Hattrs in Ht1, Hs1. rewrite Ht1 in Ht2. rewrite Hs1 in Hs2.
  revert Hk1 Hk2. unfold supported_kinds. rewrite !elem_of_cons, elem_of_nil.
  intros Hk1 Hk2.
  destruct (type_of v1); try (exfalso; intuition discriminate);
    destruct (type_of v2); try (exfalso; intuition discriminate);
    try reflexivity; simpl in Ht2, Hs2; discriminate.
Qed.

End Loading.

(** ** The theorems at concrete inputs *)

(** From here on the runtime is [strict_runtime]. *)
#[local] Existing Instance strict_runtime.


Lemma tag_completeness_witness :
  types_dict !! type_of (VStr "ab") = Some create_stringlike_dataset
  /\ create_stringlike_dataset (VStr "ab") ∅ 0 []
     = Ok (<["data_0" := Dataset (PArray [SStr "ab"]) (Some DtVlenStr) []
                           (<["type" := AList ["string"]]> ∅)]> ∅)
  /\ exists h_node tag load,
       (<["data_0" := Dataset (PArray [SStr "ab"]) (Some DtVlenStr) []
                        (<["type" := AList ["string"]]> ∅)]> ∅ : group)
         !! data_name 0 = Some h_node
       /\ attrs h_node !! "type" = Some (AList [tag])
       /\ tag ∈ encoder_tags
       /\ hkl_types_dict !! tag = Some load
       /\ hkl_decode h_node = load h_node.
Proof.
  assert (Hreg : types_dict !! type_of (VStr "ab")
                 = Some create_stringlike_dataset) by reflexivity.
  assert (Hrun : create_stringlike_dataset (VStr "ab") ∅ 0 []
                 = Ok (<["data_0" := Dataset (PArray [SStr "ab"]) (Some DtVlenStr) []
                                       (<["type" := AList ["string"]]> ∅)]> ∅))
    by (vm_compute; reflexivity).
  split; [exact Hreg |]. split; [exact Hrun |].
  exact (tag_completeness _ (VStr "ab") ∅ _ 0 [] Hreg Hrun).
Defined.

(** C3 fails as stated: the node of subtype [str] does not decode, and the
    exception is [TypeError], not [UnknownSubtypeError]. *)
Lemma unknown_subtype_is_type_error :
  let h_node :=
    Dataset (PScalar (SInt 1)) (Some (DtType TInt)) []
      (<["python_subdtype" := ABytes "<class 'str'>"]>
         (<["type" := AList ["python_dtype"]]> ∅)) in
  hkl_decode h_node = Raise TypeError
  /\ hkl_decode h_node <> Raise UnknownSubtypeError.
Proof.
  intros h_node.
  assert (Hdecode : hkl_decode h_node = Raise TypeError)
    by (vm_compute; reflexivity).
  split; [exact Hdecode |]. rewrite Hdecode. discriminate.
Qed.

Lemma unknown_subtype_fails_witness :
  let h_node :=
    Dataset (PScalar (SInt 1)) (Some (DtType TInt)) []
      (<["python_subdtype" := ABytes "<class 'str'>"]>
         (<["type" := AList ["python_dtype"]]> ∅)) in
  attrs h_node !! "type" = Some (AList ["python_dtype"])
  /\ attrs h_node !! "python_subdtype" = Some (ABytes "<class 'str'>")
  /\ (ABytes "<class 'str'>"
        ∉ [ABytes "<class 'int'>"; ABytes "<class 'float'>";
           ABytes "<class 'bool'>"; ABytes "<class 'complex'>"])
  /\ load_python_dtype_dataset h_node = Raise TypeError
  /\ hkl_decode h_node = Raise TypeError
  /\ hkl_decode h_node <> Raise UnknownSubtypeError.
Proof.
  intros h_node.
  assert (Htype : attrs h_node !! "type" = Some (AList ["python_dtype"]))
    by reflexivity.
  assert (Hsub : attrs h_node !! "python_subdtype" = Some (ABytes "<class 'str'>"))
    by reflexivity.
  assert (Hunknown : ABytes "<class 'str'>"
                       ∉ [ABytes "<class 'int'>"; ABytes "<class 'float'>";
                          ABytes "<class 'bool'>"; ABytes "<class 'complex'>"]).
  { rewrite !not_elem_of_cons. repeat split; try discriminate.
    apply not_elem_of_nil. }
  split; [exact Htype |]. split; [exact Hsub |]. split; [exact Hunknown |].
  pose proof (unknown_subtype_fails h_node (ABytes "<class 'str'>")
                Htype Hsub Hunknown) as (Hload & Hdecode & Hnot & _).
  split; [exact Hload |]. split; [exact Hdecode | exact Hnot].
Defined.

(** C4 fails on the placeholder path: [None] encoded with a compression
    option and [None] encoded with no option do not give the same node. *)
Lemma options_forwarded_for_none :
  hkl_encode VNone ∅ 0 [("compression", OStr "gzip")] <> hkl_encode VNone ∅ 0 []
  /\ (forall h_node,
        hkl_encode VNone ∅ 0 [("compression", OStr "gzip")]
        = Ok (<["data_0" := h_node]> ∅) ->
        kwds h_node = [("compression", OStr "gzip")]).
Proof.
  split.
  - intros Heq.
    apply (f_equal (fun r => match r with
                             | Ok g => kwds <$> g !! "data_0"
                             | Raise _ => None
                             end)) in Heq.
    vm_compute in Heq. discriminate Heq.
  - intros h_node Hrun.
    unfold hkl_encode in Hrun. rewrite types_dict_lookup in Hrun.
    cbn [type_of] in Hrun.
    rewrite (create_none_dataset_fresh VNone ∅ 0 _ (lookup_empty _)) in Hrun.
    apply (f_equal (fun r : result group =>
                      match r with
                      | Ok g => g !! "data_0"
                      | Raise _ => None
                      end)) in Hrun.
    change (data_name 0) with "data_0" in Hrun.
    rewrite !lookup_insert_eq in Hrun.
    assert (Hnode : Dataset (PArray [SInt 0]) None [("compression", OStr "gzip")]
                      (<["type" := AList ["none"]]> ∅) = h_node)
      by congruence.
    rewrite <- Hnode. reflexivity.
Qed.

Lemma options_dropped_on_scalars_witness :
  type_of (VFloat float_3) ∈ numeric_kinds
  /\ hkl_encode (VFloat float_3) ∅ 0 [("compression", OStr "gzip")]
     = hkl_encode (VFloat float_3) ∅ 0 [].
Proof.
  assert (Hkind : type_of (VFloat float_3) ∈ numeric_kinds)
    by (unfold numeric_kinds; simpl; repeat constructor).
  split; [exact Hkind |].
  exact (proj1 (options_dropped_on_scalars (VFloat float_3) ∅ 0
                  [("compression", OStr "gzip")] Hkind)).
Defined.


Lemma subtype_fidelity_witness :
  (∅ : group) !! data_name 0 = None
  /\ (exists v, roundtrip (VBool true) ∅ 0 [] = Ok v
                /\ v = VBool true /\ type_of v = TBool /\ type_of v <> TInt)
  /\ roundtrip (VComplex float_3 float_4) ∅ 0 [] = Ok (VComplex float_3 float_4).
Proof.
  assert (Hfree : (∅ : group) !! data_name 0 = None) by reflexivity.
  split; [exact Hfree |].
  split.
  - exact (proj1 (subtype_fidelity ∅ 0 [] Hfree)).
  - exact (proj1 (proj2 (subtype_fidelity ∅ 0 [] Hfree))).
Defined.

Lemma text_bytes_distinct_witness :
  (∅ : group) !! data_name 0 = None
  /\ (exists h_node,
         hkl_encode (VBytes "ab") ∅ 0 [] = Ok (<[data_name 0 := h_node]> ∅)
         /\ attrs h_node !! "type" = Some (AList ["bytes"])
         /\ hkl_decode h_node = Ok (VBytes "ab"))
  /\ (exists h_node,
         hkl_encode (VStr "ab") ∅ 0 [] = Ok (<[data_name 0 := h_node]> ∅)
         /\ attrs h_node !! "type" = Some (AList ["string"])
         /\ hkl_decode h_node = Ok (VStr "ab")).
Proof.
  assert (Hfree : (∅ : group) !! data_name 0 = None) by reflexivity.
  split; [exact Hfree |].
  split.
  - exact (proj1 (text_bytes_distinct ∅ 0 [] Hfree)).
  - exact (proj1 (proj2 (text_bytes_distinct ∅ 0 [] Hfree))).
Defined.

Lemma none_ignores_payload_witness :
  let h_node :=
    Dataset (PArray [SStr "x"; SInt 8]) None [] (<["type" := AList ["none"]]> ∅) in
  attrs h_node !! "type" = Some (AList ["none"])
  /\ hkl_decode h_node = Ok VNone.
Proof.
  intros h_node.
  assert (Htype : attrs h_node !! "type" = Some (AList ["none"])) by reflexivity.
  split; [exact Htype |].
  exact (proj1 (none_ignores_payload h_node Htype)).
Defined.

(** C9 fails: a [none] node with an empty payload decodes to [None], and a
    [string] and a [bytes] node with two slots decode to their slot 0. *)
Lemma malformed_payload_accepted :
  hkl_decode (Dataset (PArray []) None [] (<["type" := AList ["none"]]> ∅))
  = Ok VNone
  /\ hkl_decode (Dataset (PArray [SStr "ab"; SStr "cd"]) (Some DtVlenStr) []
                   (<["type" := AList ["string"]]> ∅))
     = Ok (VStr "ab")
  /\ hkl_decode (Dataset (PArray [SBytes "ab"; SBytes "cd"]) None []
                   (<["type" := AList ["bytes"]]> ∅))
     = Ok (VBytes "ab").
Proof. repeat split; vm_compute; reflexivity. Qed.

Lemma payload_length_unchecked_witness :
  let h_node :=
    Dataset (PArray []) (Some DtVlenStr) [] (<["type" := AList ["string"]]> ∅) in
  "string" ∈ ["string"; "bytes"]
  /\ attrs h_node !! "type" = Some (AList ["string"])
  /\ contents h_node = PArray []
  /\ hkl_decode h_node = Raise IndexError
  /\ forall v, hkl_decode h_node <> Ok v.
Proof.
  intros h_node.
  assert (Htag : "string" ∈ ["string"; "bytes"]) by repeat constructor.
  assert (Htype : attrs h_node !! "type" = Some (AList ["string"])) by reflexivity.
  assert (Hdata : contents h_node = PArray []) by reflexivity.
  split; [exact Htag |]. split; [exact Htype |]. split; [exact Hdata |].
  exact (proj1 (payload_length_unchecked h_node "string" Htag Htype) Hdata).
Defined.

Lemma create_stringlike_dataset_other_witness :
  (type_of (VInt 3) ∉ [TBytes; TStr])
  /\ create_stringlike_dataset (VInt 3) ∅ 0 [("compression", OStr "gzip")]
     = Ok ∅.
Proof.
  assert (Hkind : type_of (VInt 3) ∉ [TBytes; TStr]).
  { rewrite !not_elem_of_cons. repeat split; try discriminate.
    apply not_elem_of_nil. }
  split; [exact Hkind |].
  exact (create_stringlike_dataset_other (VInt 3) ∅ 0
           [("compression", OStr "gzip")] Hkind).
Defined.

(** ** Further evaluations *)

(** Duplicates of a payload collapse under the set tag. *)
Example set_collapse :
  hkl_decode (Dataset (PArray [SInt 1; SInt 2; SInt 2; SInt 3]) None []
                (<["type" := AList ["<class 'set'>"]]> ∅))
  = Ok (VSet {[SInt 1; SInt 2; SInt 3]}).
Proof.
  erewrite hkl_decode_tag; [| reflexivity | exact hkl_types_dict_set].
  erewrite load_set_dataset_array; [| reflexivity | reflexivity].
  reflexivity.
Qed.

(** A tag outside the registry is refused by the dispatch. *)
Example unknown_tag :
  hkl_decode (Dataset (PArray [SInt 1]) None [] (<["type" := AList ["bogus"]]> ∅))
  = Raise UnknownTagError.
Proof. vm_compute. reflexivity. Qed.

(** The tag a list-like dumper writes for an object outside its three
    registered kinds is not a key of the decoder registry. *)
Example listlike_on_str :
  create_listlike_dataset (VStr "ab") ∅ 0 []
  = Ok (<["data_0" := Dataset (PArray [SStr "a"; SStr "b"]) None []
                        (<["type" := AList ["<class 'str'>"]]> ∅)]> ∅)
  /\ hkl_types_dict !! "<class 'str'>" = None.
Proof. split; vm_compute; reflexivity. Qed.

(** An integer outside 64 bits is refused with [OverflowError], and
    nothing is written. *)
Example int_out_of_range :
  hkl_encode (VInt (2 ^ 63)) ∅ 0 [] = Raise OverflowError
  /\ representative (VInt (2 ^ 63)) = false.
Proof. split; vm_compute; reflexivity. Qed.

(** A byte string with a NUL is refused, and nothing is written. *)
Example bytes_with_nul :
  hkl_encode (VBytes ("a" ++ String Ascii.zero "b")) ∅ 0 []
  = Raise rt_refusal
  /\ representative (VBytes ("a" ++ String Ascii.zero "b")) = false.
Proof. split; vm_compute; reflexivity. Qed.

(** On an array of two dimensions the list loader returns its rows and the
    set loader raises. *)
Example rows_of_two_dimensions :
  let h_node :=
    Dataset (PNested [PArray [SInt 1; SInt 2]; PArray [SInt 3; SInt 4]]) None []
      (<["type" := AList ["<class 'list'>"]]> ∅) in
  load_list_dataset h_node
  = Ok (VListOf [PArray [SInt 1; SInt 2]; PArray [SInt 3; SInt 4]])
  /\ load_set_dataset h_node = Raise TypeError.
Proof. split; vm_compute; reflexivity. Qed.

(** ** The further theorems at concrete inputs *)

(** ** The further theorems at concrete inputs *)

Lemma dumper_frame_witness :
  let g : group :=
    <["data_0" := Dataset (PArray [SInt 1]) None []
                    (<["type" := AList ["<class 'list'>"]]> ∅)]> ∅ in
  types_dict !! TList = Some create_listlike_dataset
  /\ create_listlike_dataset (VList [SInt 1]) ∅ 0 [] = Ok g
  /\ (forall name d, (∅ : group) !! name = Some d -> g !! name = Some d)
  /\ (forall name, name <> data_name 0 -> g !! name = (∅ : group) !! name)
  /\ (size (∅ : group) <= size g <= S (size (∅ : group)))%nat.
Proof.
  intros g.
  assert (Hreg : types_dict !! TList = Some create_listlike_dataset)
    by reflexivity.
  assert (Hrun : create_listlike_dataset (VList [SInt 1]) ∅ 0 [] = Ok g)
    by (vm_compute; reflexivity).
  split; [exact Hreg |]. split; [exact Hrun |].
  exact (dumper_frame TList _ (VList [SInt 1]) ∅ g 0 [] Hreg Hrun).
Defined.



Lemma dumped_node_survives_witness :
  let g1 : group :=
    <["data_0" := Dataset (PScalar (SBool true)) (Some (DtType TBool)) []
                    (<["python_subdtype" := ABytes "<class 'bool'>"]>
                       (<["type" := AList ["python_dtype"]]> ∅))]> ∅ in
  hkl_encode (VBool true) ∅ 0 [] = Ok g1
  /\ exists h_node,
       g1 !! data_name 0 = Some h_node
       /\ (representative (VBool true) = true ->
           hkl_decode h_node = Ok (VBool true))
       /\ forall t create other g2 j k,
            types_dict !! t = Some create ->
            create other g1 j k = Ok g2 ->
            g2 !! data_name 0 = Some h_node.
Proof.
  intros g1.
  assert (Henc : hkl_encode (VBool true) ∅ 0 [] = Ok g1)
    by (vm_compute; reflexivity).
  split; [exact Henc |].
  exact (dumped_node_survives (VBool true) ∅ g1 0 [] Henc).
Defined.

Lemma options_forwarded_witness :
  let g : group :=
    <["data_0" := Dataset (PArray [SBytes "ab"]) None
                    [("compression", OStr "gzip")]
                    (<["type" := AList ["bytes"]]> ∅)]> ∅ in
  type_of (VBytes "ab") ∈ [TList; TTuple; TSet; TBytes; TStr]
  /\ hkl_encode (VBytes "ab") ∅ 0 [("compression", OStr "gzip")] = Ok g
  /\ exists h_node,
       g = <[data_name 0 := h_node]> ∅
       /\ kwds h_node = [("compression", OStr "gzip")].
Proof.
  intros g.
  assert (Hkind : type_of (VBytes "ab") ∈ [TList; TTuple; TSet; TBytes; TStr])
    by (simpl; repeat constructor).
  assert (Henc : hkl_encode (VBytes "ab") ∅ 0 [("compression", OStr "gzip")]
                 = Ok g)
    by (vm_compute; reflexivity).
  split; [exact Hkind |]. split; [exact Henc |].
  exact (options_forwarded (VBytes "ab") ∅ g 0 [("compression", OStr "gzip")]
           Hkind Henc).
Defined.

Lemma hkl_decode_reads_only_witness :
  let n1 :=
    Dataset (PArray [SInt 1]) None [] (<["type" := AList ["<class 'list'>"]]> ∅) in
  let n2 :=
    Dataset (PArray [SInt 1]) (Some (DtType TInt)) [("compression", OStr "gzip")]
      (<["title" := ABytes "x"]> (<["type" := AList ["<class 'list'>"]]> ∅)) in
  contents n1 = contents n2
  /\ attrs n1 !! "type" = attrs n2 !! "type"
  /\ attrs n1 !! "python_subdtype" = attrs n2 !! "python_subdtype"
  /\ hkl_decode n1 = hkl_decode n2.
Proof.
  intros n1 n2.
  assert (Hdata : contents n1 = contents n2) by reflexivity.
  assert (Htype : attrs n1 !! "type" = attrs n2 !! "type") by reflexivity.
  assert (Hsub : attrs n1 !! "python_subdtype" = attrs n2 !! "python_subdtype")
    by reflexivity.
  split; [exact Hdata |]. split; [exact Htype |]. split; [exact Hsub |].
  exact (hkl_decode_reads_only n1 n2 Hdata Htype Hsub).
Defined.


Lemma load_python_dtype_dataset_other_nodes_witness :
  let g : group :=
    <["data_0" := Dataset (PArray [SInt 1]) None []
                    (<["type" := AList ["<class 'tuple'>"]]> ∅)]> ∅ in
  type_of (VTuple [SInt 1]) ∈ [TList; TTuple; TSet; TBytes; TStr; TNoneType]
  /\ hkl_encode (VTuple [SInt 1]) ∅ 0 [] = Ok g
  /\ exists h_node,
       g = <[data_name 0 := h_node]> ∅
       /\ attrs h_node !! "python_subdtype" = None
       /\ load_python_dtype_dataset h_node = Raise KeyError.
Proof.
  intros g.
  assert (Hkind : type_of (VTuple [SInt 1])
                    ∈ [TList; TTuple; TSet; TBytes; TStr; TNoneType])
    by (simpl; repeat constructor).
  assert (Henc : hkl_encode (VTuple [SInt 1]) ∅ 0 [] = Ok g)
    by (vm_compute; reflexivity).
  split; [exact Hkind |]. split; [exact Henc |].
  exact (load_python_dtype_dataset_other_nodes (VTuple [SInt 1]) ∅ g 0 []
           Hkind Henc).
Defined.

Lemma scalar_node_wrong_loader_witness :
  let g : group :=
    <["data_0" := Dataset (PScalar (SFloat float_3)) (Some (DtType TFloat)) []
                    (<["python_subdtype" := ABytes "<class 'float'>"]>
                       (<["type" := AList ["python_dtype"]]> ∅))]> ∅ in
  type_of (VFloat float_3) ∈ numeric_kinds
  /\ hkl_encode (VFloat float_3) ∅ 0 [] = Ok g
  /\ exists h_node,
       g = <[data_name 0 := h_node]> ∅
       /\ load_list_dataset h_node = Raise TypeError
       /\ load_tuple_dataset h_node = Raise TypeError
       /\ load_set_dataset h_node = Raise TypeError
       /\ load_bytes_dataset h_node = Raise IndexError
       /\ load_string_dataset h_node = Raise IndexError.
Proof.
  intros g.
  assert (Hkind : type_of (VFloat float_3) ∈ numeric_kinds)
    by (unfold numeric_kinds; simpl; repeat constructor).
  assert (Henc : hkl_encode (VFloat float_3) ∅ 0 [] = Ok g)
    by (vm_compute; reflexivity).
  split; [exact Hkind |]. split; [exact Henc |].
  exact (scalar_node_wrong_loader (VFloat float_3) ∅ g 0 [] Hkind Henc).
Defined.

Lemma load_set_dataset_collapses_witness :
  let h_node :=
    Dataset (PArray [SInt 1; SInt 2; SInt 2; SInt 3]) None []
      (<["type" := AList ["<class 'set'>"]]> ∅) in
  attrs h_node !! "type" = Some (AList ["<class 'set'>"])
  /\ contents h_node = PArray [SInt 1; SInt 2; SInt 2; SInt 3]
  /\ homogeneous [SInt 1; SInt 2; SInt 2; SInt 3] = true
  /\ forallb hash_exact [SInt 1; SInt 2; SInt 2; SInt 3] = true
  /\ exists s : gset scalar,
       load_set_dataset h_node = Ok (VSet s)
       /\ (forall x, x ∈ s <-> x ∈ [SInt 1; SInt 2; SInt 2; SInt 3])
       /\ (size s <= length [SInt 1; SInt 2; SInt 2; SInt 3])%nat
       /\ (NoDup [SInt 1; SInt 2; SInt 2; SInt 3] ->
           size s = length [SInt 1; SInt 2; SInt 2; SInt 3]).
Proof.
  intros h_node.
  assert (Htype : attrs h_node !! "type" = Some (AList ["<class 'set'>"]))
    by reflexivity.
  assert (Hdata : contents h_node = PArray [SInt 1; SInt 2; SInt 2; SInt 3])
    by reflexivity.
  assert (Hhom : homogeneous [SInt 1; SInt 2; SInt 2; SInt 3] = true)
    by reflexivity.
  assert (Hexact : forallb hash_exact [SInt 1; SInt 2; SInt 2; SInt 3] = true)
    by reflexivity.
  split; [exact Htype |]. split; [exact Hdata |]. split; [exact Hhom |].
  split; [exact Hexact |].
  exact (load_set_dataset_collapses h_node "<class 'set'>" [] _ Htype Hdata
           Hhom Hexact).
Defined.


Lemma attrs_determine_kind_witness :
  let n1 :=
    Dataset (PScalar (SInt 1)) (Some (DtType TInt)) []
      (<["python_subdtype" := ABytes "<class 'int'>"]>
         (<["type" := AList ["python_dtype"]]> ∅)) in
  let n2 :=
    Dataset (PScalar (SInt 2)) (Some (DtType TInt)) []
      (<["python_subdtype" := ABytes "<class 'int'>"]>
         (<["type" := AList ["python_dtype"]]> ∅)) in
  type_of (VInt 1) ∈ supported_kinds
  /\ type_of (VInt 2) ∈ supported_kinds
  /\ (∅ : group) !! data_name 0 = None
  /\ (∅ : group) !! data_name 5 = None
  /\ hkl_encode (VInt 1) ∅ 0 [] = Ok (<[data_name 0 := n1]> ∅)
  /\ hkl_encode (VInt 2) ∅ 5 [("compression", OStr "gzip")]
     = Ok (<[data_name 5 := n2]> ∅)
  /\ attrs n1 = attrs n2
  /\ type_of (VInt 1) = type_of (VInt 2).
Proof.
  intros n1 n2.
  assert (Hk1 : type_of (VInt 1) ∈ supported_kinds)
    by (unfold supported_kinds; simpl; repeat constructor).
  assert (Hk2 : type_of (VInt 2) ∈ supported_kinds)
    by (unfold supported_kinds; simpl; repeat constructor).
  assert (Hf1 : (∅ : group) !! data_name 0 = None) by reflexivity.
  assert (Hf2 : (∅ : group) !! data_name 5 = None) by reflexivity.
  assert (Hr1 : hkl_encode (VInt 1) ∅ 0 [] = Ok (<[data_name 0 := n1]> ∅))
    by (vm_compute; reflexivity).
  assert (Hr2 : hkl_encode (VInt 2) ∅ 5 [("compression", OStr "gzip")]
                = Ok (<[data_name 5 := n2]> ∅))
    by (vm_compute; reflexivity).
  assert (Hattrs : attrs n1 = attrs n2) by reflexivity.
  split; [exact Hk1 |]. split; [exact Hk2 |]. split; [exact Hf1 |].
  split; [exact Hf2 |]. split; [exact Hr1 |]. split; [exact Hr2 |].
  split; [exact Hattrs |].
  exact (attrs_determine_kind (VInt 1) (VInt 2) ∅ ∅ 0 5 []
           [("compression", OStr "gzip")] n1 n2 Hk1 Hk2 Hf1 Hf2 Hr1 Hr2 Hattrs).
Defined.
